(** * geteltorito: extracting the El Torito boot image of a CD image

    A shallow embedding of [geteltorito.py] and the properties of its
    decoder: the sector reader [get_sector], the volume descriptor check,
    the boot catalog entries and the sizing of the boot image.

    Python values are modelled as follows.
    - [bytes] objects are [list byte]; Python's unbounded [int] is [Z].
    - [str] values obtained by [.decode("ascii")] are Rocq [string]s.
    - The image file is a byte list together with what the device and the
      process allow: the seeks and the reads that raise [IOError], and the
      largest buffer that can be allocated; the read cursor is part of the
      state. Offsets and lengths have the limits of a 64-bit CPython.
    - [struct.unpack] is modelled for the little-endian standard mode
      (formats starting with '<'), format string included: the format is
      parsed character by character as CPython's [prepare_s] does.
    - Exceptions, [sys.exit] and the messages on stderr are carried by a
      small state-and-error monad.

    The script is read as Python 3.12 or later reads it (line 107 has a
    backslash inside an f-string expression). Opening the image, the
    command line and the writing of the output are outside the model: a
    run starts with the image opened and ends with the bytes handed to the
    output. *)

From Stdlib Require Import ZArith List Bool Lia ZifyBool.
From Stdlib Require Import Strings.String Strings.Ascii Strings.Byte.
Import ListNotations.

Open Scope Z_scope.

(** ** Bytes *)

Definition bytes := list byte.

Definition byte_val (b : byte) : Z := Z.of_N (Byte.to_N b).

(** [b[lo:hi]] for non-negative constant bounds. *)
Definition slice (lo hi : nat) (b : bytes) : bytes :=
  firstn (hi - lo) (skipn lo b).

Definition mem_byte (c : byte) (chars : bytes) : bool :=
  existsb (Byte.eqb c) chars.

Fixpoint lstrip (chars b : bytes) : bytes :=
  match b with
  | [] => []
  | c :: r => if mem_byte c chars then lstrip chars r else b
  end.

Definition rstrip (chars b : bytes) : bytes :=
  rev (lstrip chars (rev b)).

(** [b.strip(chars)]: the bytes of [chars] are removed from both ends. *)
Definition strip (chars b : bytes) : bytes :=
  lstrip chars (rstrip chars b).

Definition is_ascii (c : byte) : bool := byte_val c <? 128.

(** [b.decode("ascii")]: [None] stands for UnicodeDecodeError. *)
Definition decode_ascii (b : bytes) : option string :=
  if forallb is_ascii b then Some (string_of_list_byte b) else None.

(** [b.decode("ascii", "ignore")]: bytes above 127 are dropped. *)
Definition decode_ascii_ignore (b : bytes) : string :=
  string_of_list_byte (filter is_ascii b).

(** ** The [struct] module, little-endian standard mode *)

Module Struct.

Inductive error :=
| BadChar            (* "bad char in struct format" *)
| CountWithoutCode   (* "repeat count given without format specifier" *)
| BadSize (need : Z) (* "unpack requires a buffer of <need> bytes" *)
| NotModelled.       (* byte orders other than '<', and e f d p *)

Inductive value :=
| VInt (n : Z)
| VBytes (b : bytes)
| VBool (b : bool).

Inductive result (A : Type) :=
| Ok (a : A)
| Err (e : error).
Arguments Ok {A} a.
Arguments Err {A} e.

(** One format item: a repeat count and a format character. *)
Definition item := (Z * ascii)%type.

Definition is_space (c : ascii) : bool :=
  let n := nat_of_ascii c in
  orb (Nat.eqb n 32) (andb (Nat.leb 9 n) (Nat.leb n 13)).

Definition digit_of (c : ascii) : option Z :=
  let n := nat_of_ascii c in
  if andb (Nat.leb 48 n) (Nat.leb n 57) then Some (Z.of_nat n - 48) else None.

(** Size of one item of the little-endian table; [None] for a character
    that is not in the table. *)
Definition code_size (c : ascii) : option Z :=
  match c with
  | "x" | "b" | "B" | "c" | "s" | "p" | "?" => Some 1
  | "h" | "H" | "e" => Some 2
  | "i" | "I" | "l" | "L" | "f" => Some 4
  | "q" | "Q" | "d" => Some 8
  | _ => None
  end%char.

(** The scan of the format after the byte-order character: white space is
    skipped, digits accumulate into a repeat count [cnt] that the next
    character must complete. *)
Fixpoint scan (s : string) (cnt : option Z) : result (list item) :=
  match s with
  | EmptyString =>
      match cnt with
      | None => Ok []
      | Some _ => Err CountWithoutCode
      end
  | String c r =>
      match cnt, digit_of c with
      | None, Some d => scan r (Some d)
      | Some n, Some d => scan r (Some (10 * n + d))
      | _, None =>
          if andb (is_space c) (match cnt with None => true | _ => false end)
          then scan r None
          else
            match code_size c with
            | None => Err BadChar
            | Some _ =>
                match scan r None with
                | Ok items =>
                    Ok ((match cnt with Some n => n | None => 1 end, c) :: items)
                | Err e => Err e
                end
            end
      end
  end.

Definition parse_format (fmt : string) : result (list item) :=
  match fmt with
  | String "<"%char r => scan r None
  | _ => Err NotModelled
  end.

Definition item_size (it : item) : Z :=
  match code_size (snd it) with
  | Some sz => fst it * sz
  | None => 0
  end.

Definition calcsize (items : list item) : Z :=
  fold_right (fun it acc => item_size it + acc) 0 items.

(** Little-endian unsigned integer held by a byte list. *)
Fixpoint le_uint (b : bytes) : Z :=
  match b with
  | [] => 0
  | c :: r => byte_val c + 256 * le_uint r
  end.

Definition le_sint (b : bytes) : Z :=
  let u := le_uint b in
  let m := 2 ^ (8 * Z.of_nat (List.length b)) in
  if u <? m / 2 then u else u - m.

(** [n] values of [sz] bytes each from offset [off] on, decoded by
    [dec]. *)
Fixpoint unpack_ints (dec : bytes -> value) (sz n off : nat) (b : bytes)
  : list value :=
  match n with
  | O => []
  | S n' =>
      dec (slice off (off + sz) b) :: unpack_ints dec sz n' (off + sz) b
  end.

Definition unpack_item (it : item) (off : nat) (b : bytes)
  : option (list value) :=
  let n := Z.to_nat (fst it) in
  let uint := fun x => VInt (le_uint x) in
  let sint := fun x => VInt (le_sint x) in
  match snd it with
  | "x"%char => Some []
  | "s"%char => Some [VBytes (slice off (off + n) b)]
  | "c"%char => Some (unpack_ints VBytes 1 n off b)
  | "?"%char =>
      Some (unpack_ints (fun x => VBool (negb (le_uint x =? 0))) 1 n off b)
  | "B"%char => Some (unpack_ints uint 1 n off b)
  | "H"%char => Some (unpack_ints uint 2 n off b)
  | "I"%char | "L"%char => Some (unpack_ints uint 4 n off b)
  | "Q"%char => Some (unpack_ints uint 8 n off b)
  | "b"%char => Some (unpack_ints sint 1 n off b)
  | "h"%char => Some (unpack_ints sint 2 n off b)
  | "i"%char | "l"%char => Some (unpack_ints sint 4 n off b)
  | "q"%char => Some (unpack_ints sint 8 n off b)
  | _ => None
  end.

(** The items are decoded one after the other, each at its offset. *)
Fixpoint unpack_items (items : list item) (off : nat) (b : bytes)
  : result (list value) :=
  match items with
  | [] => Ok []
  | it :: rest =>
      match unpack_item it off b with
      | None => Err NotModelled
      | Some vs =>
          match unpack_items rest (off + Z.to_nat (item_size it)) b with
          | Ok ws => Ok (vs ++ ws)
          | Err e => Err e
          end
      end
  end.

(** [struct.unpack(fmt, b)]: the format is compiled first, then the
    length of the buffer is compared with the size of the format. *)
Definition unpack (fmt : string) (b : bytes) : result (list value) :=
  match parse_format fmt with
  | Err e => Err e
  | Ok items =>
      if Z.of_nat (List.length b) =? calcsize items
      then unpack_items items 0 b
      else Err (BadSize (calcsize items))
  end.

End Struct.

(** ** The image file, exceptions and the monad of the script *)

Definition V_SEC_SIZE : Z := 512.
Definition SEC_SIZE : Z := 2048.

(** The opened image and what surrounds it: its contents; the byte offsets
    at which the device refuses a seek with [IOError]; the reads (byte
    offset, requested length) on which the device raises [IOError]; and
    the size in bytes of the largest buffer that the process can allocate
    (one block of 512 bytes can always be allocated). *)
Record file := mkFile {
  data : bytes;
  seek_error : Z -> bool;
  io_error : Z -> Z -> bool;
  memory : Z
}.

Inductive exn :=
| IOError
| StructError (e : Struct.error)
| UnicodeDecodeError
| ValueError
| OverflowError
| MemoryError.

(** The places where the script leaves with [sys.exit(1)]. *)
Inductive failure :=
| ExitNoSector            (* lines 72-73 and 91-92: [if not sector] *)
| ExitNotBootableImage    (* lines 82-87 *)
| ExitInvalidValidation   (* lines 102-104 *)
| ExitBootIndicator       (* lines 126-131 *)
| ExitException (e : exn) (* lines 186-188: [except Exception] *).

Inductive arch := X86 | PowerPC | Mac | UnknownArch (platform : Z).

Inductive media_name :=
| NoEmulation | Floppy1200 | Floppy1440 | Floppy2880 | HardDisk.

(** What the script prints on stderr. *)
Inductive message :=
| MsgReadError                          (* line 30 *)
| MsgNotBootableImage                   (* line 83 *)
| MsgCatalogSector (boot_p : Z)         (* line 94 *)
| MsgInvalidValidation                  (* line 103 *)
| MsgManufacturer (name : string)       (* line 106 *)
| MsgArchitecture (a : arch)            (* lines 110-118 *)
| MsgBootIndicator                      (* line 127 *)
| MsgMediaType (m : option media_name)  (* lines 133-147 *)
| MsgImageExtent (img_start cnt : Z)    (* line 156 *)
| MsgWritten                            (* line 181 *)
| MsgException (e : exn)                (* line 187 *).

(** The observable history of a run: the stderr messages, and (as ghost
    information) the calls of [get_sector]. *)
Inductive event :=
| GetSector (sec_num sec_count : Z)
| Stderr (m : message).

Record state := mkState {
  pos : Z;               (* read cursor of the image file *)
  events : list event    (* in the order they happened *)
}.

Inductive res (A : Type) :=
| Ret (a : A)
| Raise (e : exn)
| SysExit (w : failure).
Arguments Ret {A} a.
Arguments Raise {A} e.
Arguments SysExit {A} w.

Definition M (A : Type) : Type := state -> res A * state.

Definition ret {A} (a : A) : M A := fun st => (Ret a, st).

Definition bind {A B} (m : M A) (k : A -> M B) : M B :=
  fun st =>
    match m st with
    | (Ret a, st') => k a st'
    | (Raise e, st') => (Raise e, st')
    | (SysExit w, st') => (SysExit w, st')
    end.

Declare Scope py_scope.
Delimit Scope py_scope with py.
Notation "x <- m ;; k" := (bind m (fun x => k))
  (at level 61, m at next level, right associativity) : py_scope.
Notation "m ;; k" := (bind m (fun _ => k))
  (at level 61, right associativity) : py_scope.
Open Scope py_scope.

Definition raise {A} (e : exn) : M A := fun st => (Raise e, st).

Definition sys_exit {A} (w : failure) : M A := fun st => (SysExit w, st).

Definition record (e : event) : M unit :=
  fun st => (Ret tt, mkState (pos st) (events st ++ [e])).

Definition print (m : message) : M unit := record (Stderr m).

(** [try: body except IOError: handler] *)
Definition try_except_IOError {A} (body handler : M A) : M A :=
  fun st =>
    match body st with
    | (Raise IOError, st') => handler st'
    | r => r
    end.

(** [file.seek(offset)]: an offset that does not fit the 64-bit signed
    offset of the system is a ValueError; a negative offset is refused by
    the system with an OSError, which is what [IOError] names, and so is
    an offset that the device does not accept. *)
Definition seek (f : file) (offset : Z) : M unit :=
  fun st =>
    if (offset <? - 2 ^ 63) || (2 ^ 63 <=? offset) then (Raise ValueError, st)
    else if (offset <? 0) || seek_error f offset then (Raise IOError, st)
    else (Ret tt, mkState offset (events st)).

(** The bytes that a read of [n] bytes at [offset] finds in [d]: at most
    [n], fewer at the end of the file, all that is left when [n] is -1. *)
Definition available (d : bytes) (offset n : Z) : bytes :=
  let rest := skipn (Z.to_nat offset) d in
  if n =? -1 then rest else firstn (Z.to_nat n) rest.

(** A buffer of [n] bytes can be allocated. *)
Definition can_allocate (f : file) (n : Z) : bool :=
  n <=? Z.max V_SEC_SIZE (memory f).

(** [file.read(n)] on the buffered reader of a 64-bit CPython: a length
    that does not fit a signed 64-bit size, or for which no bytes object
    exists (more than 2^63 - 34 bytes), is an OverflowError; a length
    below -1 is a ValueError; the buffer is allocated before the device is
    read, and a failed allocation is a MemoryError. An error leaves the
    cursor where it is. *)
Definition read (f : file) (n : Z) : M bytes :=
  fun st =>
    if (n <? - 2 ^ 63) || (2 ^ 63 - 34 <? n) then (Raise OverflowError, st)
    else if n <? -1 then (Raise ValueError, st)
    else if negb (can_allocate f
                    (if n =? -1
                     then Z.of_nat (List.length (available (data f) (pos st) n))
                     else n))
    then (Raise MemoryError, st)
    else if io_error f (pos st) n then (Raise IOError, st)
    else
      let b := available (data f) (pos st) n in
      (Ret b, mkState (pos st + Z.of_nat (List.length b)) (events st)).

(** [struct.unpack], raising [struct.error]. *)
Definition struct_unpack (fmt : string) (b : bytes)
  : M (list Struct.value) :=
  match Struct.unpack fmt b with
  | Struct.Ok vs => ret vs
  | Struct.Err e => raise (StructError e)
  end.

Definition decode (b : bytes) : M string :=
  match decode_ascii b with
  | Some s => ret s
  | None => raise UnicodeDecodeError
  end.

(** ** get_sector (lines 21-31) *)

Definition get_sector (f : file) (sec_num sec_count : Z) : M (option bytes) :=
  record (GetSector sec_num sec_count) ;;
  try_except_IOError
    (seek f (sec_num * SEC_SIZE) ;;
     b <- read f (V_SEC_SIZE * sec_count) ;;
     ret (Some b))
    (print MsgReadError ;;
     ret None).

(** [if not sector: sys.exit(1)]: [None] and the empty bytes are false. *)
Definition or_exit (sector : option bytes) : M bytes :=
  match sector with
  | Some (c :: r) => ret (c :: r)
  | _ => sys_exit ExitNoSector
  end.

(** ** main (lines 68-188) *)

Import Struct.

Definition x00 : byte := Byte.x00.

Definition architecture (platform : Z) : arch :=
  if platform =? 0 then X86
  else if platform =? 1 then PowerPC
  else if platform =? 2 then Mac
  else UnknownArch platform.

(** Lines 71-87: sector 17 and the El Torito signature; the value is the
    sector of the booting catalog, [boot_p]. *)
Definition volume_descriptor (f : file) : M Z :=
  sector <- get_sector f 17 1 ;;
  sector <- or_exit sector ;;
  vals <- struct_unpack "<B5sB32s32sI" (slice 0 75 sector) ;;
  match vals with
  | [VInt boot; VBytes iso_ident; VInt version; VBytes torito_spec; _;
     VInt boot_p] =>
      iso_ident <- decode iso_ident ;;
      torito_spec <- decode (strip [x00] torito_spec) ;;
      if negb (iso_ident =? "CD001")%string
         || negb (torito_spec =? "EL TORITO SPECIFICATION")%string
      then
        print MsgNotBootableImage ;;
        sys_exit ExitNotBootableImage
      else ret boot_p
  | _ => raise ValueError
  end.

(** Lines 96-118: the Validation Entry, the first 32 bytes of the catalog
    sector. The manufacturer is printed with [strip(b'\\0')], which removes
    backslashes and the digit 0, not NUL bytes. *)
Definition validation_entry (sector : bytes) : M unit :=
  let validate_entry := slice 0 32 sector in
  vals <- struct_unpack "<BBH24sHBB" validate_entry ;;
  match vals with
  | [VInt header; VInt platform; _; VBytes manufact; _; VInt five; VInt aa] =>
      if negb (header =? 1) || negb (five =? 0x55) || negb (aa =? 0xAA)
      then
        print MsgInvalidValidation ;;
        sys_exit ExitInvalidValidation
      else
        print (MsgManufacturer
                 (decode_ascii_ignore (strip ["\"%byte; "0"%byte] manufact))) ;;
        print (MsgArchitecture (architecture platform))
  | _ => raise ValueError
  end.

(** The fields of the Initial/Default Entry that the script goes on with. *)
Record initial_fields := mkInitial {
  boot : Z;
  media : Z;
  s_count : Z;
  img_start : Z
}.

(** Lines 121-124: the Initial/Default Entry, bytes 32 to 63 of the catalog
    sector, unpacked with the format [fmt]. *)
Definition initial_entry (fmt : string) (sector : bytes) : M initial_fields :=
  let initial_entry := slice 32 64 sector in
  vals <- struct_unpack fmt initial_entry ;;
  match vals with
  | [VInt boot; VInt media; VInt load_segment; VInt system_type; _;
     VInt s_count; VInt img_start; _] =>
      ret (mkInitial boot media s_count img_start)
  | _ => raise ValueError
  end.

(** Lines 133-152: the sector count that the media type gives, 0 when it
    gives none. *)
Definition media_count (f : file) (media img_start : Z) : M Z :=
  if media =? 0 then
    print (MsgMediaType (Some NoEmulation)) ;;
    ret 0
  else if media =? 1 then
    print (MsgMediaType (Some Floppy1200)) ;;
    ret (1200 * 1024 / V_SEC_SIZE)
  else if media =? 2 then
    print (MsgMediaType (Some Floppy1440)) ;;
    ret (1440 * 1024 / V_SEC_SIZE)
  else if media =? 3 then
    print (MsgMediaType (Some Floppy2880)) ;;
    ret (2880 * 1024 / V_SEC_SIZE)
  else if media =? 4 then
    print (MsgMediaType (Some HardDisk)) ;;
    mbr <- get_sector f img_start 1 ;;
    match mbr with
    | Some (c :: r) =>
        let partition1 := slice 446 462 (c :: r) in
        vals <- struct_unpack "<8sII" partition1 ;;
        match vals with
        | [_; VInt first_sector; VInt partition_size] =>
            ret (first_sector + partition_size)
        | _ => raise ValueError
        end
    | _ => ret 0
    end
  else
    print (MsgMediaType None) ;;
    ret 0.

(** Lines 133-154: [cnt], the sector count used for the extraction. *)
Definition resolve_count (f : file) (e : initial_fields) : M Z :=
  count <- media_count f (media e) (img_start e) ;;
  ret (if count =? 0 then s_count e else count).

(** Lines 126-181, from the unpacked entry on: the boot indicator, the
    sizing and the read of the image. The value is what is written to the
    output, [None] when nothing is written. *)
Definition boot_image (f : file) (e : initial_fields) : M (option bytes) :=
  if negb (boot e =? 0x88) then
    print MsgBootIndicator ;;
    sys_exit ExitBootIndicator
  else
    cnt <- resolve_count f e ;;
    print (MsgImageExtent (img_start e) cnt) ;;
    image <- get_sector f (img_start e) cnt ;;
    match image with
    | Some (c :: r) =>
        print MsgWritten ;;
        ret (Some (c :: r))
    | _ => ret None
    end.

(** The body of the [try] block, with the format of the Initial/Default
    Entry as a parameter. *)
Definition main_body (fmt : string) (f : file) : M (option bytes) :=
  boot_p <- volume_descriptor f ;;
  sector <- get_sector f boot_p 1 ;;
  sector <- or_exit sector ;;
  print (MsgCatalogSector boot_p) ;;
  validation_entry sector ;;
  e <- initial_entry fmt sector ;;
  boot_image f e.

(** How a run ends. *)
Inductive outcome :=
| Written (image : bytes)   (* the image went to the output, status 0 *)
| NoOutput                  (* nothing written, status 0 *)
| Exit1 (w : failure).      (* status 1 *)

Definition initial_state : state := mkState 0 [].

(** The [try] block with its [except Exception] handler; [sys.exit] is not
    an [Exception] and passes through. *)
Definition run (fmt : string) (f : file) : outcome * list event :=
  match main_body fmt f initial_state with
  | (Ret (Some image), st) => (Written image, events st)
  | (Ret None, st) => (NoOutput, events st)
  | (SysExit w, st) => (Exit1 w, events st)
  | (Raise e, st) =>
      (Exit1 (ExitException e), events st ++ [Stderr (MsgException e)])
  end.

(** The script as it is written: line 123 has the format "<BBHBBH_I_B". *)
Definition main (f : file) : outcome * list event :=
  run "<BBHBBH_I_B" f.

(** The error classes of the specification, and the exits they name. *)
Inductive spec_error :=
| ReadError
| NotBootable
| InvalidValidationEntry.

Definition error_class (w : failure) : option spec_error :=
  match w with
  | ExitNoSector => Some ReadError
  | ExitNotBootableImage => Some NotBootable
  | ExitBootIndicator => Some NotBootable
  | ExitInvalidValidation => Some InvalidValidationEntry
  | ExitException _ => None
  end.

(** ** Building images *)

(** [s + b"\0" * (n - len(s))] *)
Definition pad_nul (n : nat) (s : bytes) : bytes :=
  s ++ repeat x00 (n - List.length s).

Definition byte_of_Z (z : Z) : byte :=
  match Byte.of_N (Z.to_N (z mod 256)) with
  | Some b => b
  | None => x00
  end.

(** The [width] bytes of [z], least significant first. *)
Fixpoint le_bytes (width : nat) (z : Z) : bytes :=
  match width with
  | O => []
  | S w => byte_of_Z z :: le_bytes w (z / 256)
  end.

Definition ascii_bytes (s : string) : bytes := list_byte_of_string s.

(** A boot record volume descriptor: type, identifier, version, boot system
    tag of 32 bytes, 32 unused bytes, catalog pointer. *)
Definition pvd (ident tag : bytes) (boot_p : Z) : bytes :=
  [x00] ++ ident ++ [byte_of_Z 1] ++ tag ++ repeat x00 32 ++ le_bytes 4 boot_p.

Definition validation (header platform five aa : Z) (manufact : bytes) : bytes :=
  [byte_of_Z header; byte_of_Z platform] ++ le_bytes 2 0 ++ pad_nul 24 manufact
  ++ le_bytes 2 0 ++ [byte_of_Z five; byte_of_Z aa].

Definition initial (boot media s_count img_start : Z) : bytes :=
  [byte_of_Z boot; byte_of_Z media] ++ le_bytes 2 0 ++ [x00; x00]
  ++ le_bytes 2 s_count ++ le_bytes 4 img_start ++ repeat x00 20.

(** An image made of the given pieces, each placed at its sector; the
    pieces are given by increasing sector and must not overlap. *)
Fixpoint layout (at_byte : nat) (pieces : list (Z * bytes)) : bytes :=
  match pieces with
  | [] => []
  | (sec, b) :: rest =>
      let start := Z.to_nat (sec * SEC_SIZE) in
      repeat x00 (start - at_byte) ++ b
      ++ layout (start + List.length b) rest
  end.

Definition no_seek_error : Z -> bool := fun _ => false.

Definition no_io_error : Z -> Z -> bool := fun _ _ => false.

(** The memory of the examples: buffers of up to 2^30 bytes. *)
Definition example_memory : Z := 2 ^ 30.

(** A file on a device that raises no [IOError]. *)
Definition regular_file (d : bytes) : file :=
  mkFile d no_seek_error no_io_error example_memory.

Definition payload (n : Z) : bytes :=
  map (fun i => byte_of_Z (Z.of_nat i * 7 + 1)) (seq 0 (Z.to_nat n)).

Definition el_torito_tag : bytes := ascii_bytes "EL TORITO SPECIFICATION".

(** An image with a descriptor in sector 17, a catalog in sector 20 and an
    image at sector [start], on a device that raises no [IOError]. *)
Definition image_with (descriptor catalog : bytes) (start : Z) (img : bytes)
  : file :=
  regular_file (layout 0 [(17, descriptor); (20, catalog); (start, img)]).

Definition good_pvd : bytes :=
  pvd (ascii_bytes "CD001") (pad_nul 32 el_torito_tag) 20.

Definition good_validation : bytes :=
  validation 1 0 0x55 0xAA (ascii_bytes "ACME").

(** The image of the end-to-end scenario: descriptor in sector 17 pointing
    to sector 20, catalog in sector 20, boot indicator 0x88, no emulation,
    10 sectors of 512 bytes from sector 25 on. *)
Definition scenario_image : file :=
  image_with good_pvd (good_validation ++ initial 0x88 0 10 25)
             25 (payload 5120).

(** ** Views used in the statements *)

(** The byte offsets that a seek can be asked for. *)
Definition addressable (offset : Z) : bool :=
  (0 <=? offset) && (offset <? 2 ^ 63).

(** What [get_sector f sec_num sec_count] finds when nothing is raised;
    there is nothing at a sector whose byte offset cannot be asked for. *)
Definition sector_view (f : file) (sec_num sec_count : Z) : bytes :=
  if addressable (sec_num * SEC_SIZE)
  then available (data f) (sec_num * SEC_SIZE) (V_SEC_SIZE * sec_count)
  else [].

(** The device raises no [IOError] on the seek to the sector nor on the
    read of the blocks. *)
Definition readable (f : file) (sec_num sec_count : Z) : bool :=
  negb (seek_error f (sec_num * SEC_SIZE))
  && negb (io_error f (sec_num * SEC_SIZE) (V_SEC_SIZE * sec_count)).

(** A read of [sec_count] blocks raises none of ValueError, OverflowError
    and MemoryError: the count is not negative and the buffer of
    512 * sec_count bytes exists and can be allocated. *)
Definition fits (f : file) (sec_count : Z) : bool :=
  (0 <=? sec_count)
  && (V_SEC_SIZE * sec_count <=? 2 ^ 63 - 34)
  && can_allocate f (V_SEC_SIZE * sec_count).

(** The byte at offset [off] and the 32-bit little-endian integer at offset
    [off] of a sector. *)
Definition u8 (off : nat) (s : bytes) : Z := byte_val (nth off s x00).

Definition u32 (off : nat) (s : bytes) : Z := le_uint (slice off (off + 4) s).

Definition nul_free (s : bytes) : bool :=
  forallb (fun c => negb (Byte.eqb c x00)) s.

(** Lines 71-118 of [main]: everything before the Initial/Default Entry;
    the value is the catalog sector. *)
Definition checks (f : file) : M bytes :=
  boot_p <- volume_descriptor f ;;
  sector <- get_sector f boot_p 1 ;;
  sector <- or_exit sector ;;
  print (MsgCatalogSector boot_p) ;;
  validation_entry sector ;;
  ret sector.

Definition get_sector_calls (evs : list event) : list (Z * Z) :=
  flat_map (fun e => match e with
                     | GetSector n c => [(n, c)]
                     | Stderr _ => []
                     end) evs.

(** The state after a call of [get_sector] that returned [b]. *)
Definition after_read (st : state) (sec_num sec_count : Z) (b : bytes) : state :=
  mkState (sec_num * SEC_SIZE + Z.of_nat (List.length b))
          (events st ++ [GetSector sec_num sec_count]).

(** The state after a call of [get_sector] that met an [IOError]. *)
Definition after_failed_read (f : file) (st : state) (sec_num sec_count : Z)
  : state :=
  mkState (if seek_error f (sec_num * SEC_SIZE) then pos st
           else sec_num * SEC_SIZE)
          ((events st ++ [GetSector sec_num sec_count])
           ++ [Stderr MsgReadError]).

(** The three bytes that the Validation Entry check looks at. *)
Definition validation_ok (s : bytes) : bool :=
  (u8 0 s =? 1) && (u8 30 s =? 0x55) && (u8 31 s =? 0xAA).

(** ** Example images, and the claims as the specification words them *)

(** Identifier "CD002". *)
Definition cd002_image : file :=
  image_with (pvd (ascii_bytes "CD002") (pad_nul 32 el_torito_tag) 20)
             (good_validation ++ initial 0x88 0 10 25) 25 (payload 5120).

(** Identifier made of five bytes 0xFF. *)
Definition non_ascii_ident_image : file :=
  image_with (pvd (repeat (byte_of_Z 255) 5) (pad_nul 32 el_torito_tag) 20)
             (good_validation ++ initial 0x88 0 10 25) 25 (payload 5120).

(** The second half of the claim as the specification words it: any
    identifier other than "CD001" ends the run with the not-bootable
    error. *)
Definition identifier_rejected_as_stated (f : file) : Prop :=
  slice 1 6 (sector_view f 17 1) <> ascii_bytes "CD001" ->
  exists w, fst (main f) = Exit1 w /\ error_class w = Some NotBootable.

(** Tag: one NUL, the El Torito tag, eight NULs. *)
Definition leading_nul_image : file :=
  image_with (pvd (ascii_bytes "CD001")
                  (pad_nul 32 ([x00] ++ el_torito_tag)) 20)
             (good_validation ++ initial 0x88 0 10 25) 25 (payload 5120).

(** Tag "EL TORITO" followed by NULs. *)
Definition short_tag_image : file :=
  image_with (pvd (ascii_bytes "CD001")
                  (pad_nul 32 (ascii_bytes "EL TORITO")) 20)
             (good_validation ++ initial 0x88 0 10 25) 25 (payload 5120).

(** The claim as the specification words it: the tag is compared once its
    trailing NULs are removed, and a tag that then differs from the El
    Torito tag is refused as not bootable. *)
Definition tag_rejected_as_stated (f : file) : Prop :=
  rstrip [x00] (slice 7 39 (sector_view f 17 1)) <> el_torito_tag ->
  exists st,
    volume_descriptor f initial_state = (SysExit ExitNotBootableImage, st).

(** Signature byte 0x54 instead of 0x55. *)
Definition bad_signature_image : file :=
  image_with good_pvd
             (validation 1 0 0x54 0xAA (ascii_bytes "ACME")
              ++ initial 0x88 0 10 25) 25 (payload 5120).

(** Platform 7 and a manufacturer with bytes above 127. *)
Definition odd_platform_image : file :=
  image_with good_pvd
             (validation 1 7 0x55 0xAA (repeat (byte_of_Z 200) 24)
              ++ initial 0x88 0 10 25) 25 (payload 5120).

(** The format that the eight names on the left of line 122 call for. *)
Definition intended_format : string := "<BBHBBHI20s".

(** The scenario image with boot indicator 0 instead of 0x88. *)
Definition not_bootable_image : file :=
  image_with good_pvd (good_validation ++ initial 0 0 10 25) 25 (payload 5120).

(** A source of ten bytes. *)
Definition ten_bytes : file := regular_file (payload 10).


(** A sector whose partition slot at offset 446 holds eight bytes 0x80,
    then [first_sector] and [partition_size]. *)
Definition mbr_sector (first_sector partition_size : Z) : bytes :=
  repeat x00 446 ++ repeat (byte_of_Z 0x80) 8
  ++ le_bytes 4 first_sector ++ le_bytes 4 partition_size
  ++ repeat x00 50.

(** Hard disk emulation, partition of 4096 sectors from sector 2048 on. *)
Definition hard_disk_image : file :=
  image_with good_pvd (good_validation ++ initial 0x88 4 10 25)
             25 (mbr_sector 2048 4096 ++ payload 1024).

(** Hard disk emulation, partition fields 0. *)
Definition empty_partition_image : file :=
  image_with good_pvd (good_validation ++ initial 0x88 4 10 25)
             25 (mbr_sector 0 0 ++ payload 1024).

(** Floppy emulations of 1.2, 1.44 and 2.88 megabytes, declared count 10,
    and a media type that the script does not know, declared count 10. *)
Definition floppy_1200_image : file :=
  image_with good_pvd (good_validation ++ initial 0x88 1 10 25) 25 (payload 5120).

Definition floppy_1440_image : file :=
  image_with good_pvd (good_validation ++ initial 0x88 2 10 25) 25 (payload 5120).

Definition floppy_2880_image : file :=
  image_with good_pvd (good_validation ++ initial 0x88 3 10 25) 25 (payload 5120).

Definition unknown_media_image : file :=
  image_with good_pvd (good_validation ++ initial 0x88 9 10 25) 25 (payload 5120).

(** ** Further example images *)

(** The scenario image on a device that raises [IOError] on the read of
    sector 17. *)
Definition faulty_device : file :=
  mkFile (data scenario_image) no_seek_error
         (fun offset _ => offset =? 17 * SEC_SIZE) example_memory.

(** A source that ends 40 bytes into sector 17. *)
Definition short_descriptor_image : file :=
  regular_file (layout 0 [(17, firstn 40 good_pvd)]).

(** Tag "EL TORITO" followed by the byte 0xE9. *)
Definition non_ascii_tag_image : file :=
  image_with (pvd (ascii_bytes "CD001")
                  (pad_nul 32 (ascii_bytes "EL TORITO" ++ [byte_of_Z 0xE9])) 20)
             (good_validation ++ initial 0x88 0 10 25) 25 (payload 5120).

(** Catalog pointer 1000, beyond the end of the image. *)
Definition far_catalog_image : file :=
  image_with (pvd (ascii_bytes "CD001") (pad_nul 32 el_torito_tag) 1000)
             (good_validation ++ initial 0x88 0 10 25) 25 (payload 5120).

(** A source that ends 10 bytes into the catalog sector. *)
Definition short_catalog_image : file :=
  regular_file (layout 0 [(17, good_pvd); (20, firstn 10 good_validation)]).

(** Hard disk emulation on a source that ends 100 bytes into sector 25. *)
Definition short_mbr_image : file :=
  regular_file (layout 0 [(17, good_pvd);
                          (20, good_validation ++ initial 0x88 4 10 25);
                          (25, payload 100)]).

(** Hard disk emulation, both partition fields 0xFFFFFFFF. *)
Definition huge_partition_image : file :=
  image_with good_pvd (good_validation ++ initial 0x88 4 10 25)
             25 (mbr_sector 0xFFFFFFFF 0xFFFFFFFF ++ payload 1024).

(** The bytes that line 107 gives to [strip]: a backslash and the digit 0. *)
Definition manufacturer_strip_chars : bytes := ["\"%byte; "0"%byte].

(** ** Lemmas on bytes and on [struct] *)

Lemma byte_val_range (c : byte) : 0 <= byte_val c < 256.
Proof.
  unfold byte_val. pose proof (Byte.to_N_bounded c) as H. lia.
Qed.

Lemma le_uint_nonneg (b : bytes) : 0 <= le_uint b.
Proof.
  induction b as [|c r IH]; cbn [le_uint]; [lia|].
  pose proof (byte_val_range c). lia.
Qed.

Lemma le_uint_bound (b : bytes) : le_uint b < 256 ^ Z.of_nat (List.length b).
Proof.
  induction b as [|c r IH]; [simpl; lia|].
  cbn [le_uint List.length]. rewrite Nat2Z.inj_succ, Z.pow_succ_r by lia.
  pose proof (byte_val_range c). lia.
Qed.

(** Four bytes read as a little-endian integer. *)
Lemma le_uint_four (a b c d : byte) :
  le_uint [a; b; c; d]
  = byte_val a + 2 ^ 8 * byte_val b + 2 ^ 16 * byte_val c
    + 2 ^ 24 * byte_val d.
Proof. cbn [le_uint]. lia. Qed.

Lemma u32_range (off : nat) (s : bytes) : 0 <= u32 off s < 2 ^ 32.
Proof.
  unfold u32. split; [apply le_uint_nonneg|].
  eapply Z.lt_le_trans; [apply le_uint_bound|].
  change (2 ^ 32) with (256 ^ 4).
  apply Z.pow_le_mono_r; [lia|].
  unfold slice. rewrite length_firstn. lia.
Qed.

Lemma slice_length (lo hi : nat) (s : bytes) :
  (hi <= List.length s)%nat -> List.length (slice lo hi s) = (hi - lo)%nat.
Proof.
  intros H. unfold slice. rewrite length_firstn, length_skipn. lia.
Qed.

Lemma slice_one (off : nat) (s : bytes) :
  (off < List.length s)%nat -> slice off (S off) s = [nth off s x00].
Proof.
  unfold slice. replace (S off - off)%nat with 1%nat by lia.
  revert s. induction off as [|off IH]; intros [|c r] H; simpl in *; try lia.
  - reflexivity.
  - apply IH. lia.
Qed.

Lemma le_uint_slice_one (off : nat) (s : bytes) :
  (off < List.length s)%nat -> le_uint (slice off (S off) s) = u8 off s.
Proof.
  intros H. rewrite slice_one by exact H. unfold u8. simpl. lia.
Qed.

(** A slice of the slice [s[:n]]. *)
Lemma slice_slice0 (lo hi n : nat) (s : bytes) :
  (hi <= n)%nat -> slice lo hi (slice 0 n s) = slice lo hi s.
Proof.
  intros H. unfold slice. rewrite Nat.sub_0_r. simpl skipn at 2.
  rewrite skipn_firstn_comm, firstn_firstn.
  f_equal. lia.
Qed.

(** A slice of a slice. *)
Lemma slice_slice (lo hi a b : nat) (s : bytes) :
  (hi <= b - a)%nat ->
  slice lo hi (slice a b s) = slice (a + lo) (a + hi) s.
Proof.
  intros H. unfold slice.
  rewrite skipn_firstn_comm, firstn_firstn, skipn_skipn.
  f_equal; [lia | f_equal; lia].
Qed.

Ltac parse_fmt :=
  match goal with
  | |- context [parse_format ?fmt] =>
      let r := eval vm_compute in (parse_format fmt) in
      change (parse_format fmt) with r
  end.

(** The three formats of the script on buffers of the right length. *)
Lemma unpack_descriptor_exact (b : bytes) :
  List.length b = 75%nat ->
  Struct.unpack "<B5sB32s32sI" b =
  Ok [VInt (le_uint (slice 0 1 b)); VBytes (slice 1 6 b);
      VInt (le_uint (slice 6 7 b)); VBytes (slice 7 39 b);
      VBytes (slice 39 71 b); VInt (le_uint (slice 71 75 b))].
Proof.
  intros H. unfold Struct.unpack. parse_fmt. cbv iota beta.
  rewrite H. reflexivity.
Qed.

Lemma unpack_descriptor (s : bytes) :
  (75 <= List.length s)%nat ->
  Struct.unpack "<B5sB32s32sI" (slice 0 75 s) =
  Ok [VInt (u8 0 s); VBytes (slice 1 6 s); VInt (u8 6 s);
      VBytes (slice 7 39 s); VBytes (slice 39 71 s); VInt (u32 71 s)].
Proof.
  intros H. rewrite unpack_descriptor_exact by (apply slice_length; exact H).
  rewrite !slice_slice0 by lia.
  rewrite !le_uint_slice_one by lia. reflexivity.
Qed.

Lemma unpack_validation_exact (b : bytes) :
  List.length b = 32%nat ->
  Struct.unpack "<BBH24sHBB" b =
  Ok [VInt (le_uint (slice 0 1 b)); VInt (le_uint (slice 1 2 b));
      VInt (le_uint (slice 2 4 b)); VBytes (slice 4 28 b);
      VInt (le_uint (slice 28 30 b)); VInt (le_uint (slice 30 31 b));
      VInt (le_uint (slice 31 32 b))].
Proof.
  intros H. unfold Struct.unpack. parse_fmt. cbv iota beta.
  rewrite H. reflexivity.
Qed.

Lemma unpack_validation (s : bytes) :
  (32 <= List.length s)%nat ->
  Struct.unpack "<BBH24sHBB" (slice 0 32 s) =
  Ok [VInt (u8 0 s); VInt (u8 1 s); VInt (le_uint (slice 2 4 s));
      VBytes (slice 4 28 s); VInt (le_uint (slice 28 30 s));
      VInt (u8 30 s); VInt (u8 31 s)].
Proof.
  intros H. rewrite unpack_validation_exact by (apply slice_length; exact H).
  rewrite !slice_slice0 by lia.
  rewrite !le_uint_slice_one by lia. reflexivity.
Qed.

Lemma unpack_partition_exact (b : bytes) :
  List.length b = 16%nat ->
  Struct.unpack "<8sII" b =
  Ok [VBytes (slice 0 8 b); VInt (le_uint (slice 8 12 b));
      VInt (le_uint (slice 12 16 b))].
Proof.
  intros H. unfold Struct.unpack. parse_fmt. cbv iota beta.
  rewrite H. reflexivity.
Qed.

Lemma unpack_partition (s : bytes) :
  (462 <= List.length s)%nat ->
  Struct.unpack "<8sII" (slice 446 462 s) =
  Ok [VBytes (slice 446 454 s); VInt (u32 454 s); VInt (u32 458 s)].
Proof.
  intros H. rewrite unpack_partition_exact by (apply slice_length; exact H).
  rewrite !slice_slice by lia. reflexivity.
Qed.

(** A buffer of another length is refused, whatever the format asks. *)
Lemma unpack_wrong_length (fmt : string) (items : list item) (b : bytes) :
  parse_format fmt = Ok items ->
  Z.of_nat (List.length b) <> calcsize items ->
  Struct.unpack fmt b = Err (BadSize (calcsize items)).
Proof.
  intros P H. unfold Struct.unpack. rewrite P.
  apply Z.eqb_neq in H. rewrite H. reflexivity.
Qed.

(** Line 123: the format of the Initial/Default Entry does not compile. *)
Lemma initial_format_bad_char (b : bytes) :
  Struct.unpack "<BBHBBH_I_B" b = Err BadChar.
Proof. reflexivity. Qed.

(** ** Running the stages *)

Lemma bind_ret {A B} (m : M A) (k : A -> M B) (st st' : state) (a : A) :
  m st = (Ret a, st') -> bind m k st = k a st'.
Proof. intros H. unfold bind. rewrite H. reflexivity. Qed.

Lemma bind_raise {A B} (m : M A) (k : A -> M B) (st st' : state) (e : exn) :
  m st = (Raise e, st') -> bind m k st = (Raise e, st').
Proof. intros H. unfold bind. rewrite H. reflexivity. Qed.

Lemma bind_exit {A B} (m : M A) (k : A -> M B) (st st' : state) (w : failure) :
  m st = (SysExit w, st') -> bind m k st = (SysExit w, st').
Proof. intros H. unfold bind. rewrite H. reflexivity. Qed.

Lemma bind_assoc {A B C} (m : M A) (k : A -> M B) (h : B -> M C) (st : state) :
  bind (bind m k) h st = bind m (fun a => bind (k a) h) st.
Proof.
  unfold bind. destruct (m st) as [[a|e|w] st']; reflexivity.
Qed.

Lemma sector_view_in_range (f : file) (n c : Z) :
  0 <= n < 2 ^ 52 ->
  sector_view f n c
  = available (data f) (n * SEC_SIZE) (V_SEC_SIZE * c).
Proof.
  intros N. unfold sector_view, addressable, SEC_SIZE.
  assert (E : (0 <=? n * 2048) && (n * 2048 <? 2 ^ 63) = true) by lia.
  rewrite E. reflexivity.
Qed.

Lemma sector_view_out_of_range (f : file) (n c : Z) :
  ~ 0 <= n < 2 ^ 52 -> sector_view f n c = [].
Proof.
  intros N. unfold sector_view, addressable, SEC_SIZE.
  assert (E : (0 <=? n * 2048) && (n * 2048 <? 2 ^ 63) = false) by lia.
  rewrite E. reflexivity.
Qed.

(** One block can always be read. *)
Lemma fits_one (f : file) : fits f 1 = true.
Proof. unfold fits, can_allocate, V_SEC_SIZE. lia. Qed.

(** [get_sector] on a sector that can be asked for, with a count that
    fits. *)
Lemma get_sector_run (f : file) (n c : Z) (st : state) :
  0 <= n < 2 ^ 52 ->
  fits f c = true ->
  get_sector f n c st =
  if readable f n c
  then (Ret (Some (sector_view f n c)), after_read st n c (sector_view f n c))
  else (Ret None, after_failed_read f st n c).
Proof.
  intros N F. rewrite sector_view_in_range by exact N.
  unfold fits, can_allocate, V_SEC_SIZE in F.
  unfold get_sector, try_except_IOError, bind, seek, read, record, print,
    record, ret, readable, after_read, after_failed_read, can_allocate,
    SEC_SIZE, V_SEC_SIZE.
  cbn [pos events].
  assert (E1 : (n * 2048 <? - 2 ^ 63) || (2 ^ 63 <=? n * 2048) = false) by lia.
  rewrite E1.
  destruct (seek_error f (n * 2048)) eqn:SE.
  - rewrite orb_true_r. reflexivity.
  - assert (E2 : (n * 2048 <? 0) = false) by lia. rewrite E2.
    cbn [orb negb andb pos events].
    assert (E3 : (512 * c <? - 2 ^ 63) || (2 ^ 63 - 34 <? 512 * c) = false)
      by lia.
    assert (E4 : (512 * c <? -1) = false) by lia.
    assert (E5 : (512 * c =? -1) = false) by lia.
    assert (E6 : (512 * c <=? Z.max 512 (memory f)) = true) by lia.
    cbv zeta. rewrite E3, E4. cbn [orb]. rewrite E5. rewrite E6. cbn [negb].
    destruct (io_error f (n * 2048) (512 * c)); reflexivity.
Qed.

(** The reads of one block, which are those of every run of [main]. *)
Lemma get_sector_run1 (f : file) (n : Z) (st : state) :
  0 <= n < 2 ^ 52 ->
  get_sector f n 1 st =
  if readable f n 1
  then (Ret (Some (sector_view f n 1)), after_read st n 1 (sector_view f n 1))
  else (Ret None, after_failed_read f st n 1).
Proof. intros N. apply get_sector_run; [exact N | apply fits_one]. Qed.

(** What a call of [get_sector] that returned bytes tells. *)
Lemma get_sector_some (f : file) (n c : Z) (st st' : state) (b : bytes) :
  get_sector f n c st = (Ret (Some b), st') ->
  0 <= n < 2 ^ 52
  /\ fits f c = true
  /\ readable f n c = true
  /\ b = sector_view f n c
  /\ st' = after_read st n c b.
Proof.
  unfold get_sector, try_except_IOError, bind, seek, read, record, print,
    record, ret, can_allocate, SEC_SIZE, V_SEC_SIZE.
  cbn [pos events].
  destruct ((n * 2048 <? - 2 ^ 63) || (2 ^ 63 <=? n * 2048)) eqn:E1;
    [discriminate|].
  destruct ((n * 2048 <? 0) || seek_error f (n * 2048)) eqn:E2;
    [discriminate|].
  cbn [pos events].
  destruct ((512 * c <? - 2 ^ 63) || (2 ^ 63 - 34 <? 512 * c)) eqn:E3;
    [discriminate|].
  destruct (512 * c <? -1) eqn:E4; [discriminate|].
  cbv zeta.
  assert (E5 : (512 * c =? -1) = false) by lia. rewrite E5.
  destruct (512 * c <=? Z.max 512 (memory f)) eqn:E6; cbn [negb];
    [|discriminate].
  destruct (io_error f (n * 2048) (512 * c)) eqn:E7; [discriminate|].
  apply orb_false_elim in E2. destruct E2 as [E2 SE].
  intros H. inversion H; subst. clear H.
  assert (N : 0 <= n < 2 ^ 52) by lia.
  rewrite sector_view_in_range by exact N.
  unfold fits, readable, can_allocate, after_read, SEC_SIZE, V_SEC_SIZE.
  rewrite SE, E7. repeat split; try reflexivity; lia.
Qed.

(** A sector that cannot be asked for gives no bytes: the call returns
    [None] or raises ValueError. *)
Lemma get_sector_out_of_range (f : file) (n c : Z) (st : state) :
  ~ 0 <= n < 2 ^ 52 ->
  get_sector f n c st
  = (Ret None,
     mkState (pos st) ((events st ++ [GetSector n c]) ++ [Stderr MsgReadError]))
  \/ get_sector f n c st
     = (Raise ValueError, mkState (pos st) (events st ++ [GetSector n c])).
Proof.
  intros N.
  unfold get_sector, try_except_IOError, bind, seek, read, record, print,
    record, ret, SEC_SIZE.
  cbn [pos events].
  destruct ((n * 2048 <? - 2 ^ 63) || (2 ^ 63 <=? n * 2048)) eqn:E1.
  - right. reflexivity.
  - assert (E2 : (n * 2048 <? 0) = true) by lia. rewrite E2. cbn [orb].
    left. reflexivity.
Qed.


Lemma u32_nonneg (off : nat) (s : bytes) : 0 <= u32 off s.
Proof. apply le_uint_nonneg. Qed.

(** The run of lines 71-87 on a sector 17 of at least 75 bytes whose
    identifier and tag are ASCII. *)
Lemma volume_descriptor_run (f : file) (st : state) (s : bytes)
      (ident tag : string) :
  readable f 17 1 = true ->
  sector_view f 17 1 = s ->
  (75 <= List.length s)%nat ->
  decode_ascii (slice 1 6 s) = Some ident ->
  decode_ascii (strip [x00] (slice 7 39 s)) = Some tag ->
  volume_descriptor f st =
  if negb (ident =? "CD001")%string
     || negb (tag =? "EL TORITO SPECIFICATION")%string
  then (SysExit ExitNotBootableImage,
        mkState (pos (after_read st 17 1 s))
                (events (after_read st 17 1 s) ++ [Stderr MsgNotBootableImage]))
  else (Ret (u32 71 s), after_read st 17 1 s).
Proof.
  intros R V L DI DT. unfold volume_descriptor.
  rewrite (bind_ret _ _ st (after_read st 17 1 s) (Some s))
    by (rewrite get_sector_run1, R, V by lia; reflexivity).
  destruct s as [|c r]; [simpl in L; lia|].
  rewrite (bind_ret _ _ _ (after_read st 17 1 (c :: r)) (c :: r))
    by reflexivity.
  rewrite (bind_ret _ _ _ (after_read st 17 1 (c :: r))
             [VInt (u8 0 (c :: r)); VBytes (slice 1 6 (c :: r));
              VInt (u8 6 (c :: r)); VBytes (slice 7 39 (c :: r));
              VBytes (slice 39 71 (c :: r)); VInt (u32 71 (c :: r))])
    by (unfold struct_unpack; rewrite unpack_descriptor by exact L;
        reflexivity).
  cbv iota.
  rewrite (bind_ret _ _ _ (after_read st 17 1 (c :: r)) ident)
    by (unfold decode; rewrite DI; reflexivity).
  rewrite (bind_ret _ _ _ (after_read st 17 1 (c :: r)) tag)
    by (unfold decode; rewrite DT; reflexivity).
  destruct (negb (ident =? "CD001")%string
            || negb (tag =? "EL TORITO SPECIFICATION")%string);
    reflexivity.
Qed.

Lemma run_exit (fmt : string) (f : file) (w : failure) (st : state) :
  main_body fmt f initial_state = (SysExit w, st) ->
  run fmt f = (Exit1 w, events st).
Proof. intros H. unfold run. rewrite H. reflexivity. Qed.

Lemma run_raise (fmt : string) (f : file) (e : exn) (st : state) :
  main_body fmt f initial_state = (Raise e, st) ->
  run fmt f = (Exit1 (ExitException e), events st ++ [Stderr (MsgException e)]).
Proof. intros H. unfold run. rewrite H. reflexivity. Qed.

(** Lines 96-118 on a catalog sector of at least 32 bytes. *)
Lemma validation_entry_run (s : bytes) (st : state) :
  (32 <= List.length s)%nat ->
  validation_entry s st =
  if negb (u8 0 s =? 1) || negb (u8 30 s =? 0x55) || negb (u8 31 s =? 0xAA)
  then (SysExit ExitInvalidValidation,
        mkState (pos st) (events st ++ [Stderr MsgInvalidValidation]))
  else (Ret tt,
        mkState (pos st)
          ((events st
            ++ [Stderr (MsgManufacturer
                          (decode_ascii_ignore
                             (strip ["\"%byte; "0"%byte] (slice 4 28 s))))])
           ++ [Stderr (MsgArchitecture (architecture (u8 1 s)))])).
Proof.
  intros L. unfold validation_entry.
  rewrite (bind_ret _ _ st st
             [VInt (u8 0 s); VInt (u8 1 s); VInt (le_uint (slice 2 4 s));
              VBytes (slice 4 28 s); VInt (le_uint (slice 28 30 s));
              VInt (u8 30 s); VInt (u8 31 s)])
    by (unfold struct_unpack; rewrite unpack_validation by exact L;
        reflexivity).
  cbv iota.
  destruct (negb (u8 0 s =? 1) || negb (u8 30 s =? 0x55)
            || negb (u8 31 s =? 0xAA)); reflexivity.
Qed.

(** Lines 121-124 as written: [struct.error] for every catalog sector. *)
Lemma initial_entry_raises (s : bytes) (st : state) :
  initial_entry "<BBHBBH_I_B" s st = (Raise (StructError BadChar), st).
Proof. reflexivity. Qed.

(** [main] is [checks] followed by the Initial/Default Entry and the image. *)
Lemma main_body_checks (fmt : string) (f : file) (st : state) :
  main_body fmt f st =
  bind (checks f)
       (fun sector => bind (initial_entry fmt sector) (boot_image f)) st.
Proof.
  unfold main_body, checks, bind.
  destruct (volume_descriptor f st) as [[p|e|w] st1]; try reflexivity.
  destruct (get_sector f p 1 st1) as [[o|e|w] st2]; try reflexivity.
  destruct (or_exit o st2) as [[sec|e|w] st3]; try reflexivity.
  destruct (print (MsgCatalogSector p) st3) as [[u|e|w] st4]; try reflexivity.
  destruct (validation_entry sec st4) as [[u'|e|w] st5]; reflexivity.
Qed.

(** ** C4: the volume descriptor *)

(** C4, counterexample: with the identifier bytes FF FF FF FF FF the decoding
    to ASCII raises UnicodeDecodeError, and the run ends in the general
    exception handler, not with the not-bootable message. *)
Lemma identifier_non_ascii_counterexample :
  ~ identifier_rejected_as_stated non_ascii_ident_image.
Proof.
  intros H.
  destruct H as [w [E C]]; [vm_compute; discriminate|].
  assert (R : fst (main non_ascii_ident_image)
              = Exit1 (ExitException UnicodeDecodeError))
    by (vm_compute; reflexivity).
  rewrite R in E. inversion E; subst w. discriminate C.
Qed.

(** C4 (amended): when sector 17 is readable, holds at least 75 bytes and
    its identifier and boot-system tag are ASCII, a source with identifier
    "CD001" and tag "EL TORITO SPECIFICATION" passes the check with exactly
    one read, of sector 17, and the value is the 32-bit little-endian
    integer at byte offset 71 of that sector; and a source whose identifier
    is not "CD001" ends with the not-bootable error. *)
Theorem volume_descriptor_pointer_and_identifier
        (f : file) (ident tag : string) :
  readable f 17 1 = true ->
  (75 <= List.length (sector_view f 17 1))%nat ->
  decode_ascii (slice 1 6 (sector_view f 17 1)) = Some ident ->
  decode_ascii (strip [x00] (slice 7 39 (sector_view f 17 1))) = Some tag ->
  (ident = "CD001"%string -> tag = "EL TORITO SPECIFICATION"%string ->
   exists st,
     volume_descriptor f initial_state
     = (Ret (le_uint (slice 71 75 (sector_view f 17 1))), st)
     /\ events st = [GetSector 17 1])
  /\ (ident <> "CD001"%string ->
      main f = (Exit1 ExitNotBootableImage,
                [GetSector 17 1; Stderr MsgNotBootableImage])
      /\ error_class ExitNotBootableImage = Some NotBootable).
Proof.
  intros R L DI DT.
  pose proof (volume_descriptor_run f initial_state _ ident tag
                R eq_refl L DI DT) as V.
  split.
  - intros -> ->. rewrite V. cbn [String.eqb Ascii.eqb Bool.eqb negb orb].
    eexists. split; reflexivity.
  - intros N. apply String.eqb_neq in N. rewrite N in V.
    cbn [negb orb] in V. split; [|reflexivity].
    unfold main. erewrite run_exit.
    2:{ unfold main_body. erewrite bind_exit by exact V. reflexivity. }
    reflexivity.
Qed.

(** C4, witness: the scenario image passes with pointer 20; the image with
    identifier "CD002" is refused. *)
Lemma volume_descriptor_pointer_and_identifier_witness :
  (exists st, volume_descriptor scenario_image initial_state = (Ret 20, st)
              /\ events st = [GetSector 17 1])
  /\ main cd002_image = (Exit1 ExitNotBootableImage,
                         [GetSector 17 1; Stderr MsgNotBootableImage]).
Proof.
  split.
  - apply (volume_descriptor_pointer_and_identifier
             scenario_image "CD001" "EL TORITO SPECIFICATION");
      try (vm_compute; reflexivity).
    apply Nat.leb_le. vm_compute. reflexivity.
  - apply (volume_descriptor_pointer_and_identifier
             cd002_image "CD002" "EL TORITO SPECIFICATION");
      try (vm_compute; reflexivity).
    + apply Nat.leb_le. vm_compute. reflexivity.
    + discriminate.
Defined.

(** ** C5: the boot-system tag *)

Lemma lstrip_nul_free (s : bytes) :
  nul_free s = true -> lstrip [x00] s = s.
Proof.
  destruct s as [|c r]; [reflexivity|].
  cbn [nul_free forallb lstrip mem_byte existsb]. intros H.
  apply andb_prop in H. destruct H as [H _].
  destruct (Byte.eqb c x00); [discriminate H | reflexivity].
Qed.

Lemma lstrip_nuls (k : nat) (s : bytes) :
  lstrip [x00] (repeat x00 k ++ s) = lstrip [x00] s.
Proof.
  induction k as [|k IH]; [reflexivity|]. exact IH.
Qed.

Lemma nul_free_rev (s : bytes) : nul_free (rev s) = nul_free s.
Proof.
  unfold nul_free. induction s as [|c r IH]; [reflexivity|].
  cbn [rev forallb]. rewrite forallb_app, IH. cbn [forallb].
  rewrite andb_true_r. apply andb_comm.
Qed.

Lemma rstrip_padding (k : nat) (s : bytes) :
  nul_free s = true -> rstrip [x00] (s ++ repeat x00 k) = s.
Proof.
  intros H. unfold rstrip.
  rewrite rev_app_distr, rev_repeat, lstrip_nuls.
  rewrite lstrip_nul_free by (rewrite nul_free_rev; exact H).
  apply rev_involutive.
Qed.

Lemma strip_pad_nul (n : nat) (s : bytes) :
  nul_free s = true -> strip [x00] (pad_nul n s) = s.
Proof.
  intros H. unfold strip, pad_nul.
  rewrite rstrip_padding by exact H. apply lstrip_nul_free. exact H.
Qed.

(** C5, counterexample: a tag that starts with a NUL byte differs from the
    El Torito tag after its trailing NULs are removed, and is accepted all
    the same: [strip] removes NULs from both ends. *)
Lemma tag_leading_nul_counterexample :
  ~ tag_rejected_as_stated leading_nul_image.
Proof.
  intros H.
  destruct H as [st E]; [vm_compute; discriminate|].
  assert (R : fst (volume_descriptor leading_nul_image initial_state) = Ret 20)
    by (vm_compute; reflexivity).
  rewrite E in R. discriminate R.
Qed.

(** C5 (amended): the tag is compared after [strip] has removed the NUL
    bytes from both of its ends, and [strip] undoes the NUL padding of
    every NUL-free string. When sector 17 is readable, holds at least 75
    bytes and its identifier and stripped tag are ASCII: a stripped tag
    other than "EL TORITO SPECIFICATION" ends the run with the not-bootable
    error, and with the identifier "CD001" the tag "EL TORITO
    SPECIFICATION" followed only by NUL padding is accepted. *)
Theorem boot_system_tag_stripped_and_compared
        (f : file) (ident tag : string) (n : nat) (s : bytes) :
  nul_free s = true ->
  readable f 17 1 = true ->
  (75 <= List.length (sector_view f 17 1))%nat ->
  decode_ascii (slice 1 6 (sector_view f 17 1)) = Some ident ->
  decode_ascii (strip [x00] (slice 7 39 (sector_view f 17 1))) = Some tag ->
  strip [x00] (pad_nul n s) = s
  /\ (tag <> "EL TORITO SPECIFICATION"%string ->
      main f = (Exit1 ExitNotBootableImage,
                [GetSector 17 1; Stderr MsgNotBootableImage])
      /\ error_class ExitNotBootableImage = Some NotBootable)
  /\ (ident = "CD001"%string ->
      slice 7 39 (sector_view f 17 1) = pad_nul 32 el_torito_tag ->
      exists st,
        volume_descriptor f initial_state
        = (Ret (u32 71 (sector_view f 17 1)), st)).
Proof.
  intros NF R L DI DT.
  pose proof (volume_descriptor_run f initial_state _ ident tag
                R eq_refl L DI DT) as V.
  split; [apply strip_pad_nul; exact NF|]. split.
  - intros N. apply String.eqb_neq in N. rewrite N in V.
    rewrite orb_true_r in V. split; [|reflexivity].
    unfold main. erewrite run_exit.
    2:{ unfold main_body. erewrite bind_exit by exact V. reflexivity. }
    reflexivity.
  - intros -> T. rewrite T in DT.
    assert (E : tag = "EL TORITO SPECIFICATION"%string)
      by (vm_compute in DT; congruence).
    subst tag. rewrite V. eexists. reflexivity.
Qed.

(** C5, witness: the image whose tag is "EL TORITO" is refused, the
    scenario image, whose tag is padded with nine NULs, is accepted. *)
Lemma boot_system_tag_stripped_and_compared_witness :
  strip [x00] (pad_nul 32 el_torito_tag) = el_torito_tag
  /\ main short_tag_image = (Exit1 ExitNotBootableImage,
                             [GetSector 17 1; Stderr MsgNotBootableImage])
  /\ exists st, volume_descriptor scenario_image initial_state = (Ret 20, st).
Proof.
  split; [|split].
  - apply (boot_system_tag_stripped_and_compared
             scenario_image "CD001" "EL TORITO SPECIFICATION" 32 el_torito_tag);
      try (vm_compute; reflexivity).
    apply Nat.leb_le. vm_compute. reflexivity.
  - apply (boot_system_tag_stripped_and_compared
             short_tag_image "CD001" "EL TORITO" 0 []);
      try (vm_compute; reflexivity).
    + apply Nat.leb_le. vm_compute. reflexivity.
    + discriminate.
  - apply (boot_system_tag_stripped_and_compared
             scenario_image "CD001" "EL TORITO SPECIFICATION" 0 []);
      try (vm_compute; reflexivity).
    apply Nat.leb_le. vm_compute. reflexivity.
Defined.

(** What a passed volume descriptor check tells. *)
Lemma volume_descriptor_ret (f : file) (st st' : state) (p : Z) :
  volume_descriptor f st = (Ret p, st') ->
  p = u32 71 (sector_view f 17 1)
  /\ st' = after_read st 17 1 (sector_view f 17 1)
  /\ readable f 17 1 = true.
Proof.
  unfold volume_descriptor, bind. rewrite get_sector_run1 by lia.
  destruct (readable f 17 1); [|discriminate].
  destruct (sector_view f 17 1) as [|c r] eqn:V; [discriminate|].
  cbn [or_exit ret]. unfold struct_unpack.
  destruct (Nat.eq_dec (List.length (slice 0 75 (c :: r))) 75) as [L|L].
  - rewrite unpack_descriptor_exact by exact L. cbn [ret]. cbv iota.
    unfold decode.
    destruct (decode_ascii _) as [ident|]; [|discriminate].
    destruct (decode_ascii _) as [tag|]; [|discriminate].
    cbn [ret].
    destruct (negb _ || negb _); [discriminate|].
    intros H. inversion H; subst. clear H.
    rewrite slice_slice0 by lia. repeat split; reflexivity.
  - rewrite (unpack_wrong_length _ [(1, "B"%char); (5, "s"%char); (1, "B"%char); (32, "s"%char); (32, "s"%char); (1, "I"%char)])
      by (try reflexivity; change (calcsize _) with 75; lia).
    discriminate.
Qed.

(** ** C6: the Validation Entry *)

(** C6: when the volume descriptor check has passed with pointer [p] and
    the catalog sector [p] is readable and holds at least 32 bytes, a
    header id other than 1, or a byte 30 other than 0x55, or a byte 31
    other than 0xAA ends the run with the invalid-validation-entry error;
    and the Validation Entry check is passed or failed by these three
    bytes alone, whatever the platform id and the manufacturer are. *)
Theorem validation_entry_signature (f : file) (p : Z) :
  fst (volume_descriptor f initial_state) = Ret p ->
  readable f p 1 = true ->
  (32 <= List.length (sector_view f p 1))%nat ->
  (u8 0 (sector_view f p 1) <> 1
   \/ u8 30 (sector_view f p 1) <> 0x55
   \/ u8 31 (sector_view f p 1) <> 0xAA ->
   main f = (Exit1 ExitInvalidValidation,
             [GetSector 17 1; GetSector p 1; Stderr (MsgCatalogSector p);
              Stderr MsgInvalidValidation])
   /\ error_class ExitInvalidValidation = Some InvalidValidationEntry)
  /\ (forall st,
        fst (validation_entry (sector_view f p 1) st)
        = if validation_ok (sector_view f p 1)
          then Ret tt else SysExit ExitInvalidValidation).
Proof.
  intros V R L. split.
  - intros B. split; [|reflexivity].
    destruct (volume_descriptor f initial_state) as [r st1] eqn:V1.
    cbn [fst] in V. subst r.
    destruct (volume_descriptor_ret _ _ _ _ V1) as [Ep [Est _]].
    assert (P : 0 <= p < 2 ^ 52)
      by (rewrite Ep; pose proof (u32_range 71 (sector_view f 17 1)); lia).
    destruct (sector_view f p 1) as [|c r] eqn:S; [simpl in L; lia|].
    assert (X : main_body "<BBHBBH_I_B" f initial_state
                = (SysExit ExitInvalidValidation,
                   mkState (p * SEC_SIZE + Z.of_nat (List.length (c :: r)))
                     [GetSector 17 1; GetSector p 1; Stderr (MsgCatalogSector p);
                      Stderr MsgInvalidValidation])).
    { unfold main_body.
      rewrite (bind_ret _ _ _ _ _ V1).
      rewrite (bind_ret _ _ _ (after_read st1 p 1 (c :: r)) (Some (c :: r)))
        by (rewrite get_sector_run1, R, S by exact P; reflexivity).
      rewrite (bind_ret _ _ _ (after_read st1 p 1 (c :: r)) (c :: r))
        by reflexivity.
      erewrite bind_ret by reflexivity.
      erewrite bind_exit; [reflexivity|].
      rewrite validation_entry_run by exact L.
      assert (T : negb (u8 0 (c :: r) =? 1) || negb (u8 30 (c :: r) =? 0x55)
                  || negb (u8 31 (c :: r) =? 0xAA) = true).
      { destruct B as [B|[B|B]]; apply Z.eqb_neq in B; rewrite B;
          cbn [negb orb]; rewrite ?orb_true_r; reflexivity. }
      rewrite T. subst st1. reflexivity. }
    unfold main. rewrite (run_exit _ _ _ _ X). reflexivity.
  - intros st. rewrite validation_entry_run by exact L. unfold validation_ok.
    destruct (u8 0 _ =? 1), (u8 30 _ =? 0x55), (u8 31 _ =? 0xAA);
      reflexivity.
Qed.

(** C6, witness: the image with signature byte 0x54 is refused; on the
    image with platform 7 and a non-ASCII manufacturer the check passes. *)
Lemma validation_entry_signature_witness :
  main bad_signature_image
  = (Exit1 ExitInvalidValidation,
     [GetSector 17 1; GetSector 20 1; Stderr (MsgCatalogSector 20);
      Stderr MsgInvalidValidation])
  /\ fst (validation_entry (sector_view odd_platform_image 20 1) initial_state)
     = Ret tt.
Proof.
  split.
  - apply (validation_entry_signature bad_signature_image 20);
      try (vm_compute; reflexivity).
    + apply Nat.leb_le. vm_compute. reflexivity.
    + right. left. vm_compute. discriminate.
  - apply (proj2 (validation_entry_signature odd_platform_image 20
                    ltac:(vm_compute; reflexivity)
                    ltac:(vm_compute; reflexivity)
                    ltac:(apply Nat.leb_le; vm_compute; reflexivity))
                 initial_state).
Defined.

(** ** C2: the Initial/Default Entry is never unpacked *)

(** What a passed Validation Entry check tells. *)
Lemma validation_entry_ret (s : bytes) (st st' : state) (u : unit) :
  validation_entry s st = (Ret u, st') ->
  (32 <= List.length s)%nat
  /\ validation_ok s = true
  /\ get_sector_calls (events st') = get_sector_calls (events st).
Proof.
  destruct (Nat.le_gt_cases 32 (List.length s)) as [L|L].
  - rewrite validation_entry_run by exact L. unfold validation_ok.
    destruct (u8 0 s =? 1), (u8 30 s =? 0x55), (u8 31 s =? 0xAA);
      cbn [negb orb andb]; try discriminate.
    intros H. inversion H; subst. cbn [events].
    unfold get_sector_calls. rewrite !flat_map_app. cbn [flat_map].
    rewrite !app_nil_r. auto.
  - unfold validation_entry, bind, struct_unpack.
    rewrite (unpack_wrong_length _
               [(1, "B"%char); (1, "B"%char); (1, "H"%char); (24, "s"%char);
                (1, "H"%char); (1, "B"%char); (1, "B"%char)]).
    + discriminate.
    + reflexivity.
    + change (calcsize _) with 32. unfold slice.
      rewrite length_firstn, length_skipn. lia.
Qed.

(** What passing all the checks before line 121 tells: two sectors were
    read, sector 17 and the catalog sector. *)
Lemma checks_ret (f : file) (sector : bytes) (st : state) :
  checks f initial_state = (Ret sector, st) ->
  exists p,
    fst (volume_descriptor f initial_state) = Ret p
    /\ sector = sector_view f p 1
    /\ validation_ok sector = true
    /\ get_sector_calls (events st) = [(17, 1); (p, 1)].
Proof.
  unfold checks, bind.
  destruct (volume_descriptor f initial_state) as [[p|e|w] st1] eqn:V;
    try discriminate.
  destruct (volume_descriptor_ret _ _ _ _ V) as [Ep [Est _]].
  assert (P : 0 <= p < 2 ^ 52)
      by (rewrite Ep; pose proof (u32_range 71 (sector_view f 17 1)); lia).
  rewrite get_sector_run1 by exact P.
  destruct (readable f p 1); [|discriminate].
  destruct (sector_view f p 1) as [|c r] eqn:S; [discriminate|].
  cbn [or_exit ret print record pos events].
  destruct (validation_entry (c :: r) _) as [[u|e|w] st5] eqn:VE;
    try discriminate.
  intros H. inversion H; subst sector st5. clear H.
  destruct (validation_entry_ret _ _ _ _ VE) as [_ [OK EV]].
  exists p. repeat split; try assumption; [symmetry; exact S|].
  rewrite EV, Est. reflexivity.
Qed.

(** C2: every source that passes the volume descriptor check and the
    Validation Entry check ends in the general exception handler with the
    error of [struct] for a bad character in the format, after the reads
    of sector 17 and of the catalog sector and nothing more; for every
    source [main] is the checks followed by that error, so that no run
    tests the boot indicator, sizes the image or reads it, and every run
    ends with status 1. *)
Theorem initial_entry_format_aborts
        (f : file) (sector : bytes) (st : state) :
  checks f initial_state = (Ret sector, st) ->
  main f = (Exit1 (ExitException (StructError BadChar)),
            events st ++ [Stderr (MsgException (StructError BadChar))])
  /\ (exists p, get_sector_calls (snd (main f)) = [(17, 1); (p, 1)])
  /\ (forall (g : file) (st0 : state),
        main_body "<BBHBBH_I_B" g st0
        = bind (checks g) (fun _ => raise (StructError BadChar)) st0)
  /\ (forall g : file, exists w, fst (main g) = Exit1 w).
Proof.
  intros C.
  assert (B : forall (g : file) (st0 : state),
             main_body "<BBHBBH_I_B" g st0
             = bind (checks g) (fun _ => raise (StructError BadChar)) st0).
  { intros g st0. rewrite main_body_checks. unfold bind.
    destruct (checks g st0) as [[s|e|w] st1]; reflexivity. }
  assert (E : main f = (Exit1 (ExitException (StructError BadChar)),
                        events st ++ [Stderr (MsgException (StructError BadChar))])).
  { unfold main. apply run_raise. rewrite B.
    rewrite (bind_ret _ _ _ _ _ C). reflexivity. }
  split; [exact E|]. split; [|split; [exact B|]].
  - destruct (checks_ret _ _ _ C) as [p [_ [_ [_ G]]]].
    exists p. rewrite E. cbn [snd]. unfold get_sector_calls in *.
    rewrite flat_map_app, G. reflexivity.
  - intros g. unfold main, run. rewrite B. unfold bind, raise.
    destruct (checks g initial_state) as [[s|e|w] st1]; eexists; reflexivity.
Qed.

(** C2, witness: the scenario image passes the checks and ends with the
    error of [struct]. *)
Lemma initial_entry_format_aborts_witness :
  main scenario_image
  = (Exit1 (ExitException (StructError BadChar)),
     [GetSector 17 1; GetSector 20 1; Stderr (MsgCatalogSector 20);
      Stderr (MsgManufacturer
                (decode_ascii_ignore
                   (strip ["\"%byte; "0"%byte] (pad_nul 24 (ascii_bytes "ACME")))));
      Stderr (MsgArchitecture X86);
      Stderr (MsgException (StructError BadChar))]).
Proof.
  apply (initial_entry_format_aborts
           scenario_image (sector_view scenario_image 20 1)
           (mkState (20 * SEC_SIZE + 512)
              [GetSector 17 1; GetSector 20 1; Stderr (MsgCatalogSector 20);
               Stderr (MsgManufacturer
                         (decode_ascii_ignore
                            (strip ["\"%byte; "0"%byte]
                               (pad_nul 24 (ascii_bytes "ACME")))));
               Stderr (MsgArchitecture X86)])).
  vm_compute. reflexivity.
Defined.

(** ** C1 and C7: the scenario and the boot indicator *)

(** C1: the image of the end-to-end scenario holds the 5120 bytes of
    payload at byte offset 25 * 2048, yet [main] does not extract them: the
    run ends in the general exception handler with the error of [struct]
    for the format of line 123, after the reads of sectors 17 and 20. With
    the intended format the same run writes exactly the payload. *)
Theorem scenario_not_extracted :
  available (data scenario_image) (25 * 2048) (10 * 512) = payload 5120
  /\ fst (main scenario_image) = Exit1 (ExitException (StructError BadChar))
  /\ get_sector_calls (snd (main scenario_image)) = [(17, 1); (20, 1)]
  /\ fst (run intended_format scenario_image) = Written (payload 5120).
Proof. vm_compute. repeat split; reflexivity. Qed.

(** C7: on an image whose Initial/Default Entry has boot indicator 0 the
    run does not end with the not-bootable error but in the general
    exception handler, the format of line 123 being refused before the
    indicator is looked at; no boot image is read. With the intended
    format the run ends with the not-bootable error. *)
Theorem boot_indicator_not_tested :
  u8 32 (sector_view not_bootable_image 20 1) = 0
  /\ fst (main not_bootable_image) = Exit1 (ExitException (StructError BadChar))
  /\ error_class (ExitException (StructError BadChar)) = None
  /\ get_sector_calls (snd (main not_bootable_image)) = [(17, 1); (20, 1)]
  /\ fst (run intended_format not_bootable_image) = Exit1 ExitBootIndicator.
Proof. vm_compute. repeat split; reflexivity. Qed.

(** ** C3: the sector reader *)


Lemma get_sector_calls_app (l l' : list event) :
  get_sector_calls (l ++ l') = get_sector_calls l ++ get_sector_calls l'.
Proof. apply flat_map_app. Qed.

(** Every call of [get_sector] is recorded, whatever it returns or
    raises. *)
Lemma get_sector_recorded (f : file) (n c : Z) (st : state) :
  get_sector_calls (events (snd (get_sector f n c st)))
  = get_sector_calls (events st) ++ [(n, c)].
Proof.
  unfold get_sector, try_except_IOError, bind, seek, read, record, print,
    record, ret.
  cbn [pos events]. cbv zeta.
  repeat match goal with
         | |- context [if ?b then _ else _] => destruct b
         end;
    cbn [snd events pos]; rewrite ?get_sector_calls_app; cbn;
    rewrite ?app_nil_r; reflexivity.
Qed.

Lemma get_sector_value (f : file) (n c : Z) (st : state) :
  0 <= n < 2 ^ 52 ->
  fits f c = true ->
  fst (get_sector f n c st)
  = if readable f n c then Ret (Some (sector_view f n c)) else Ret None.
Proof.
  intros N F. rewrite get_sector_run by assumption.
  destruct (readable f n c); reflexivity.
Qed.

Lemma sector_view_nonempty_range (f : file) (n c : Z) :
  sector_view f n c <> [] -> 0 <= n < 2 ^ 52.
Proof.
  intros H. destruct (Z.le_gt_cases 0 n) as [A|A];
    [destruct (Z.lt_ge_cases n (2 ^ 52)) as [B|B]; [lia|]|];
    exfalso; apply H; apply sector_view_out_of_range; lia.
Qed.

(** Lines 126-181 once the boot indicator is 0x88 and the count is known. *)
Lemma boot_image_run (f : file) (e : initial_fields) (st st1 : state) (cnt : Z) :
  boot e = 0x88 ->
  resolve_count f e st = (Ret cnt, st1) ->
  boot_image f e st
  = bind (get_sector f (img_start e) cnt)
         (fun image =>
            match image with
            | Some (c :: r) => bind (print MsgWritten) (fun _ => ret (Some (c :: r)))
            | _ => ret None
            end)
         (mkState (pos st1)
                  (events st1 ++ [Stderr (MsgImageExtent (img_start e) cnt)])).
Proof.
  intros B R. unfold boot_image. rewrite B. cbn [Z.eqb Pos.eqb negb].
  rewrite (bind_ret _ _ _ _ _ R).
  erewrite bind_ret by reflexivity. reflexivity.
Qed.

(** The calls of [get_sector] made by lines 154-181. *)
Lemma boot_image_calls (f : file) (e : initial_fields) (st st1 : state) (cnt : Z) :
  boot e = 0x88 ->
  resolve_count f e st = (Ret cnt, st1) ->
  get_sector_calls (events (snd (boot_image f e st)))
  = get_sector_calls (events st1) ++ [(img_start e, cnt)].
Proof.
  intros B R. rewrite (boot_image_run f e st st1 cnt B R).
  unfold bind.
  match goal with
  | |- context [get_sector f ?n ?c ?s] =>
      pose proof (get_sector_recorded f n c s) as G;
      destruct (get_sector f n c s) as [[[[|x r]|]|ex|w] st2]
  end; cbn [snd events print record ret] in *;
    rewrite ?get_sector_calls_app in *; cbn in G |- *;
    rewrite ?app_nil_r in *; exact G.
Qed.

(** Where the call raises what [get_sector] does not catch: a count below
    0 is a ValueError of the read, and so is a sector from 2^52 on, whose
    byte offset does not fit the seek; a count from 2^54 on is an
    OverflowError; a buffer beyond the memory is a MemoryError. A negative
    sector is refused by the system and gives [None]. *)
Lemma get_sector_uncaught_errors :
  fst (get_sector ten_bytes 0 (-1) initial_state) = Raise ValueError
  /\ pos (snd (get_sector ten_bytes 0 (-1) initial_state)) = 0
  /\ fst (get_sector ten_bytes (2 ^ 52) 1 initial_state) = Raise ValueError
  /\ fst (get_sector ten_bytes 0 (2 ^ 54) initial_state) = Raise OverflowError
  /\ fst (get_sector ten_bytes 0 (2 ^ 22) initial_state) = Raise MemoryError
  /\ fst (get_sector ten_bytes (-1) 1 initial_state) = Ret None.
Proof. vm_compute. repeat split; reflexivity. Qed.



(** ** C8, C9 and C10: the sizing of the image *)

(** C8: the catalogs of the three floppy images carry the media types 1, 2
    and 3 and the declared count 10, that of the scenario image the media
    type 0 and the declared count 10. On each of them [main] ends in the
    general exception handler after the reads of sectors 17 and 20: no
    count is resolved and no image is read. With the intended format the
    image is read at sector 25 with 2400, 2880 and 5760 blocks for the
    floppies and with the declared count for the scenario image. *)
Theorem floppy_counts_never_used :
  (u8 33 (sector_view floppy_1200_image 20 1) = 1
   /\ u8 33 (sector_view floppy_1440_image 20 1) = 2
   /\ u8 33 (sector_view floppy_2880_image 20 1) = 3
   /\ u8 33 (sector_view scenario_image 20 1) = 0)
  /\ (main floppy_1200_image = main scenario_image
      /\ main floppy_1440_image = main scenario_image
      /\ main floppy_2880_image = main scenario_image
      /\ fst (main scenario_image) = Exit1 (ExitException (StructError BadChar))
      /\ get_sector_calls (snd (main scenario_image)) = [(17, 1); (20, 1)])
  /\ (get_sector_calls (snd (run intended_format floppy_1200_image))
      = [(17, 1); (20, 1); (25, 2400)]
      /\ get_sector_calls (snd (run intended_format floppy_1440_image))
         = [(17, 1); (20, 1); (25, 2880)]
      /\ get_sector_calls (snd (run intended_format floppy_2880_image))
         = [(17, 1); (20, 1); (25, 5760)]
      /\ get_sector_calls (snd (run intended_format scenario_image))
         = [(17, 1); (20, 1); (25, 10)]).
Proof. vm_compute. repeat split; reflexivity. Qed.

(** C9: the partition slot of the hard disk image holds first sector 2048
    and size 4096, and its catalog the media type 4. [main] ends in the
    general exception handler after the reads of sectors 17 and 20: the
    sector of the partition table is not read and no count is resolved.
    With the intended format that sector is read and the image is then
    read with 2048 + 4096 = 6144 blocks. *)
Theorem hard_disk_count_never_used :
  u8 33 (sector_view hard_disk_image 20 1) = 4
  /\ u32 454 (sector_view hard_disk_image 25 1) = 2048
  /\ u32 458 (sector_view hard_disk_image 25 1) = 4096
  /\ fst (main hard_disk_image) = Exit1 (ExitException (StructError BadChar))
  /\ get_sector_calls (snd (main hard_disk_image)) = [(17, 1); (20, 1)]
  /\ get_sector_calls (snd (run intended_format hard_disk_image))
     = [(17, 1); (20, 1); (25, 1); (25, 6144)].
Proof. vm_compute. repeat split; reflexivity. Qed.

(** C10: the hard disk image with both partition fields 0 and the image
    with the unknown media type 9 both declare the count 10. On both
    [main] ends in the general exception handler after the reads of
    sectors 17 and 20: no count is resolved and the declared count is not
    used. With the intended format the image is read with the declared
    count on both, and with the count of the media type, 6144, on the hard
    disk image whose partition fields are not 0. *)
Theorem declared_count_never_used :
  (u8 33 (sector_view empty_partition_image 20 1) = 4
   /\ u32 454 (sector_view empty_partition_image 25 1)
      + u32 458 (sector_view empty_partition_image 25 1) = 0
   /\ u8 33 (sector_view unknown_media_image 20 1) = 9)
  /\ (fst (main empty_partition_image)
      = Exit1 (ExitException (StructError BadChar))
      /\ get_sector_calls (snd (main empty_partition_image))
         = [(17, 1); (20, 1)]
      /\ fst (main unknown_media_image)
         = Exit1 (ExitException (StructError BadChar))
      /\ get_sector_calls (snd (main unknown_media_image))
         = [(17, 1); (20, 1)])
  /\ (get_sector_calls (snd (run intended_format empty_partition_image))
      = [(17, 1); (20, 1); (25, 1); (25, 10)]
      /\ get_sector_calls (snd (run intended_format unknown_media_image))
         = [(17, 1); (20, 1); (25, 10)]
      /\ get_sector_calls (snd (run intended_format hard_disk_image))
         = [(17, 1); (20, 1); (25, 1); (25, 6144)]).
Proof. vm_compute. repeat split; reflexivity. Qed.

(** ** Lines 146-152 on the sector of the partition table *)

(** Lines 146-152 on a readable sector of at least 462 bytes. *)
Lemma media_count_hard_disk (f : file) (start : Z) (st : state) :
  0 <= start ->
  readable f start 1 = true ->
  (462 <= List.length (sector_view f start 1))%nat ->
  media_count f 4 start st
  = (Ret (u32 454 (sector_view f start 1) + u32 458 (sector_view f start 1)),
     after_read
       (mkState (pos st) (events st ++ [Stderr (MsgMediaType (Some HardDisk))]))
       start 1 (sector_view f start 1)).
Proof.
  intros N R L.
  assert (N' : 0 <= start < 2 ^ 52).
  { apply (sector_view_nonempty_range f start 1).
    intros E. rewrite E in L. simpl in L. lia. }
  unfold media_count. cbn [Z.eqb Pos.eqb].
  erewrite bind_ret by reflexivity.
  erewrite bind_ret by (rewrite get_sector_run1, R by exact N'; reflexivity).
  destruct (sector_view f start 1) as [|c r] eqn:S; [simpl in L; lia|].
  erewrite bind_ret
    by (unfold struct_unpack; rewrite unpack_partition by exact L;
        reflexivity).
  reflexivity.
Qed.

(** ** More on get_sector (lines 21-31) *)

Lemma firstn_add (a b : nat) (l : bytes) :
  firstn (a + b) l = firstn a l ++ firstn b (skipn a l).
Proof.
  revert l. induction a as [|a IH]; intros [|x l]; cbn [Nat.add firstn skipn app].
  - reflexivity.
  - reflexivity.
  - rewrite firstn_nil. reflexivity.
  - rewrite IH. reflexivity.
Qed.

(** A read of [c] blocks of 512 bytes is the four blocks of the sector
    followed by a read of the remaining blocks at the next sector. *)
Lemma sector_view_split (f : file) (n c : Z) :
  0 <= n -> n + 1 < 2 ^ 52 -> 4 <= c ->
  sector_view f n c = sector_view f n 4 ++ sector_view f (n + 1) (c - 4).
Proof.
  intros N N1 C. rewrite !sector_view_in_range by lia.
  unfold available, SEC_SIZE, V_SEC_SIZE.
  assert (E1 : (512 * c =? -1) = false) by lia.
  assert (E2 : (512 * 4 =? -1) = false) by reflexivity.
  assert (E3 : (512 * (c - 4) =? -1) = false) by lia.
  rewrite E1, E2, E3.
  replace (Z.to_nat (512 * c))
    with (Z.to_nat (512 * 4) + Z.to_nat (512 * (c - 4)))%nat by lia.
  rewrite firstn_add, skipn_skipn.
  replace (Z.to_nat (512 * 4) + Z.to_nat (n * 2048))%nat
    with (Z.to_nat ((n + 1) * 2048)) by lia.
  reflexivity.
Qed.

(** The first block of a read of at least one block. *)
Lemma sector_view_first_block (f : file) (n c : Z) :
  1 <= c -> sector_view f n 1 = firstn 512 (sector_view f n c).
Proof.
  intros C. unfold sector_view.
  destruct (addressable (n * SEC_SIZE)); [|rewrite firstn_nil; reflexivity].
  unfold available, V_SEC_SIZE.
  assert (E1 : (512 * c =? -1) = false) by lia.
  assert (E2 : (512 * 1 =? -1) = false) by reflexivity.
  rewrite E1, E2, firstn_firstn.
  f_equal. change 512%nat with (Z.to_nat 512). lia.
Qed.

(** X1: the bytes that a successful [get_sector] returns are the bytes of
    the source from byte offset 2048 * sec_num on, in order and unchanged,
    and there are at most 512 * sec_count of them. *)
Theorem get_sector_bytes (f : file) (n c : Z) (st : state) (b : bytes) :
  0 <= n -> 0 <= c ->
  fst (get_sector f n c st) = Ret (Some b) ->
  Z.of_nat (List.length b) <= 512 * c
  /\ forall i : nat,
       (i < List.length b)%nat ->
       nth_error b i = nth_error (data f) (Z.to_nat (2048 * n) + i).
Proof.
  intros N C H.
  destruct (get_sector f n c st) as [r st'] eqn:G. cbn [fst] in H. subst r.
  destruct (get_sector_some _ _ _ _ _ _ G) as [N' [_ [_ [B _]]]].
  subst b. rewrite sector_view_in_range by exact N'.
  unfold available, SEC_SIZE, V_SEC_SIZE.
  assert (E : (512 * c =? -1) = false) by lia.
  rewrite E. split.
  - rewrite length_firstn. lia.
  - intros i I. rewrite length_firstn in I.
    rewrite nth_error_firstn.
    assert (L : (i <? Z.to_nat (512 * c))%nat = true)
      by (apply Nat.ltb_lt; lia).
    rewrite L, nth_error_skipn. f_equal. lia.
Qed.

(** X1, witness: the read of sector 25 of the scenario image. *)
Lemma get_sector_bytes_witness :
  Z.of_nat (List.length (payload 5120)) <= 512 * 10
  /\ forall i : nat,
       (i < List.length (payload 5120))%nat ->
       nth_error (payload 5120) i
       = nth_error (data scenario_image) (Z.to_nat (2048 * 25) + i).
Proof.
  apply (get_sector_bytes scenario_image 25 10 initial_state (payload 5120));
    try lia.
  vm_compute. reflexivity.
Defined.

(** X2: what [get_sector] returns or raises does not depend on the cursor
    that earlier reads have left, nor on anything else of the state; after
    a read that raised nothing, of a sector from 0 to 2^52 - 1 and with a
    count that is not negative and whose buffer exists and can be
    allocated, the cursor is at the end of the bytes returned. *)
Theorem get_sector_ignores_cursor (f : file) (n c : Z) (st st' : state) :
  fst (get_sector f n c st) = fst (get_sector f n c st')
  /\ (0 <= n < 2 ^ 52 -> fits f c = true -> readable f n c = true ->
      pos (snd (get_sector f n c st))
      = 2048 * n + Z.of_nat (List.length (sector_view f n c))).
Proof.
  split.
  - unfold get_sector, try_except_IOError, bind, seek, read, record, print,
      record, ret.
    cbv zeta.
    repeat (cbn [pos events];
            match goal with
            | |- context [if ?b then _ else _] => destruct b
            end);
      reflexivity.
  - intros N F R. rewrite get_sector_run, R by assumption.
    cbn [snd pos after_read]. unfold SEC_SIZE. lia.
Qed.

(** X2, witness: sector 20 of the scenario image read from two different
    cursors. *)
Lemma get_sector_ignores_cursor_witness :
  fst (get_sector scenario_image 20 1 initial_state)
  = fst (get_sector scenario_image 20 1 (mkState 12345 [GetSector 17 1]))
  /\ pos (snd (get_sector scenario_image 20 1 initial_state)) = 2048 * 20 + 512.
Proof.
  split.
  - apply (get_sector_ignores_cursor scenario_image 20 1).
  - apply (proj2 (get_sector_ignores_cursor scenario_image 20 1
                    initial_state initial_state));
      [lia | reflexivity | reflexivity].
Defined.

(** X3: the sector size of the seek is 2048 and the block size of the read
    is 512, so that, for sectors [n] and [n + 1] from 0 to 2^52 - 1 and a
    count [c >= 4] whose buffer exists and can be allocated, on a device
    that raises no [IOError] on the three reads, a read of [c] blocks at
    sector [n] is the read of 4 blocks at sector [n] followed by the read
    of [c - 4] blocks at sector [n + 1]. *)
Theorem get_sector_across_sectors (f : file) (n c : Z) (st : state) :
  0 <= n -> n + 1 < 2 ^ 52 -> 4 <= c ->
  fits f c = true ->
  readable f n c = true ->
  readable f n 4 = true ->
  readable f (n + 1) (c - 4) = true ->
  exists b1 b2,
    fst (get_sector f n 4 st) = Ret (Some b1)
    /\ fst (get_sector f (n + 1) (c - 4) st) = Ret (Some b2)
    /\ fst (get_sector f n c st) = Ret (Some (b1 ++ b2)).
Proof.
  intros N N1 C F R R1 R2.
  assert (F1 : fits f 4 = true)
    by (unfold fits, can_allocate, V_SEC_SIZE in *; lia).
  assert (F2 : fits f (c - 4) = true)
    by (unfold fits, can_allocate, V_SEC_SIZE in *; lia).
  exists (sector_view f n 4), (sector_view f (n + 1) (c - 4)).
  rewrite !get_sector_value by (assumption || lia). rewrite R, R1, R2.
  rewrite <- sector_view_split by assumption. auto.
Qed.

(** X3, witness: ten blocks at sector 25 of the scenario image are four
    blocks at sector 25 followed by six blocks at sector 26. *)
Lemma get_sector_across_sectors_witness :
  exists b1 b2,
    fst (get_sector scenario_image 25 4 initial_state) = Ret (Some b1)
    /\ fst (get_sector scenario_image (25 + 1) (10 - 4) initial_state)
       = Ret (Some b2)
    /\ fst (get_sector scenario_image 25 10 initial_state)
       = Ret (Some (b1 ++ b2)).
Proof.
  apply (get_sector_across_sectors scenario_image 25 10 initial_state);
    try lia; reflexivity.
Defined.

(** ** More on the volume descriptor (lines 71-87) *)

Lemma volume_descriptor_unreadable (f : file) (st : state) :
  readable f 17 1 = false ->
  volume_descriptor f st
  = (SysExit ExitNoSector, after_failed_read f st 17 1).
Proof.
  intros R. unfold volume_descriptor.
  erewrite bind_ret by (rewrite get_sector_run1, R by lia; reflexivity).
  reflexivity.
Qed.

Lemma volume_descriptor_empty (f : file) (st : state) :
  readable f 17 1 = true ->
  sector_view f 17 1 = [] ->
  volume_descriptor f st = (SysExit ExitNoSector, after_read st 17 1 []).
Proof.
  intros R V. unfold volume_descriptor.
  erewrite bind_ret by (rewrite get_sector_run1, R, V by lia; reflexivity).
  reflexivity.
Qed.

Lemma volume_descriptor_short (f : file) (st : state) :
  readable f 17 1 = true ->
  sector_view f 17 1 <> [] ->
  (List.length (sector_view f 17 1) < 75)%nat ->
  volume_descriptor f st
  = (Raise (StructError (BadSize 75)), after_read st 17 1 (sector_view f 17 1)).
Proof.
  intros R V L. unfold volume_descriptor.
  erewrite bind_ret by (rewrite get_sector_run1, R by lia; reflexivity).
  destruct (sector_view f 17 1) as [|c r]; [contradiction|].
  erewrite bind_ret by reflexivity.
  erewrite bind_raise; [reflexivity|].
  unfold struct_unpack.
  rewrite (unpack_wrong_length _
             [(1, "B"%char); (5, "s"%char); (1, "B"%char); (32, "s"%char);
              (32, "s"%char); (1, "I"%char)]).
  - reflexivity.
  - reflexivity.
  - change (calcsize _) with 75. unfold slice.
    rewrite length_firstn, length_skipn. cbn [skipn]. lia.
Qed.

(** Lines 75-87 on a sector 17 of at least 75 bytes. *)
Lemma volume_descriptor_long (f : file) (st : state) :
  readable f 17 1 = true ->
  (75 <= List.length (sector_view f 17 1))%nat ->
  volume_descriptor f st
  = match decode_ascii (slice 1 6 (sector_view f 17 1)) with
    | None => (Raise UnicodeDecodeError,
               after_read st 17 1 (sector_view f 17 1))
    | Some ident =>
        match decode_ascii (strip [x00] (slice 7 39 (sector_view f 17 1))) with
        | None => (Raise UnicodeDecodeError,
                   after_read st 17 1 (sector_view f 17 1))
        | Some tag =>
            if negb (ident =? "CD001")%string
               || negb (tag =? "EL TORITO SPECIFICATION")%string
            then (SysExit ExitNotBootableImage,
                  mkState (pos (after_read st 17 1 (sector_view f 17 1)))
                    (events (after_read st 17 1 (sector_view f 17 1))
                     ++ [Stderr MsgNotBootableImage]))
            else (Ret (u32 71 (sector_view f 17 1)),
                  after_read st 17 1 (sector_view f 17 1))
        end
    end.
Proof.
  intros R L.
  destruct (decode_ascii (slice 1 6 (sector_view f 17 1))) as [ident|] eqn:DI.
  - destruct (decode_ascii (strip [x00] (slice 7 39 (sector_view f 17 1))))
      as [tag|] eqn:DT.
    + apply (volume_descriptor_run f st _ ident tag R eq_refl L DI DT).
    + unfold volume_descriptor.
      erewrite bind_ret by (rewrite get_sector_run1, R by lia; reflexivity).
      destruct (sector_view f 17 1) as [|c r] eqn:S; [simpl in L; lia|].
      erewrite bind_ret by reflexivity.
      erewrite bind_ret
        by (unfold struct_unpack; rewrite unpack_descriptor by exact L;
            reflexivity).
      cbv iota.
      erewrite bind_ret by (unfold decode; rewrite DI; reflexivity).
      erewrite bind_raise; [reflexivity|].
      unfold decode. rewrite DT. reflexivity.
  - unfold volume_descriptor.
    erewrite bind_ret by (rewrite get_sector_run1, R by lia; reflexivity).
    destruct (sector_view f 17 1) as [|c r] eqn:S; [simpl in L; lia|].
    erewrite bind_ret by reflexivity.
    erewrite bind_ret
      by (unfold struct_unpack; rewrite unpack_descriptor by exact L;
          reflexivity).
    cbv iota.
    erewrite bind_raise; [reflexivity|].
    unfold decode. rewrite DI. reflexivity.
Qed.

Lemma main_exit_in_descriptor (f : file) (w : failure) (st : state) :
  volume_descriptor f initial_state = (SysExit w, st) ->
  main f = (Exit1 w, events st).
Proof.
  intros V. unfold main. apply run_exit. unfold main_body.
  erewrite bind_exit by exact V. reflexivity.
Qed.

Lemma main_raise_in_descriptor (f : file) (e : exn) (st : state) :
  volume_descriptor f initial_state = (Raise e, st) ->
  main f = (Exit1 (ExitException e), events st ++ [Stderr (MsgException e)]).
Proof.
  intros V. unfold main. apply run_raise. unfold main_body.
  erewrite bind_raise by exact V. reflexivity.
Qed.

(** X4: when the source has no byte at offset 17 * 2048, or the device
    raises [IOError] on the read of sector 17, the run ends with status 1
    at line 73 after that one read; on the short source nothing at all is
    printed, on the [IOError] only the message of [get_sector]. *)
Theorem no_sector_17 (f : file) :
  Z.of_nat (List.length (data f)) <= 17 * 2048 \/ readable f 17 1 = false ->
  main f
  = (Exit1 ExitNoSector,
     if readable f 17 1
     then [GetSector 17 1]
     else [GetSector 17 1; Stderr MsgReadError]).
Proof.
  intros H. destruct (readable f 17 1) eqn:R.
  - destruct H as [H|H]; [|discriminate H].
    apply (main_exit_in_descriptor f ExitNoSector (after_read initial_state 17 1 [])).
    apply volume_descriptor_empty; [exact R|].
    rewrite sector_view_in_range by lia.
    unfold available, SEC_SIZE, V_SEC_SIZE.
    change (512 * 1 =? -1) with false. cbv iota.
    rewrite skipn_all2 by lia. apply firstn_nil.
  - apply (main_exit_in_descriptor f ExitNoSector
             (after_failed_read f initial_state 17 1)).
    apply volume_descriptor_unreadable. exact R.
Qed.

(** X4, witness: the source of ten bytes, and the device that fails on
    sector 17. *)
Lemma no_sector_17_witness :
  main ten_bytes = (Exit1 ExitNoSector, [GetSector 17 1])
  /\ main faulty_device
     = (Exit1 ExitNoSector, [GetSector 17 1; Stderr MsgReadError]).
Proof.
  split.
  - apply (no_sector_17 ten_bytes). left. vm_compute. discriminate.
  - apply (no_sector_17 faulty_device). right. vm_compute. reflexivity.
Defined.

(** X5: when sector 17 yields between 1 and 74 bytes, the run ends in the
    general exception handler with the error of [struct] that asks for a
    buffer of 75 bytes; neither the read-error exit nor the not-bootable
    exit is taken. *)
Theorem truncated_sector_17 (f : file) :
  readable f 17 1 = true ->
  (0 < List.length (sector_view f 17 1) < 75)%nat ->
  main f
  = (Exit1 (ExitException (StructError (BadSize 75))),
     [GetSector 17 1; Stderr (MsgException (StructError (BadSize 75)))]).
Proof.
  intros R L.
  apply (main_raise_in_descriptor f (StructError (BadSize 75))
           (after_read initial_state 17 1 (sector_view f 17 1))).
  apply volume_descriptor_short; [exact R| |lia].
  intros E. rewrite E in L. simpl in L. lia.
Qed.

(** X5, witness: the source that ends 40 bytes into sector 17. *)
Lemma truncated_sector_17_witness :
  main short_descriptor_image
  = (Exit1 (ExitException (StructError (BadSize 75))),
     [GetSector 17 1; Stderr (MsgException (StructError (BadSize 75)))]).
Proof.
  apply (truncated_sector_17 short_descriptor_image).
  - vm_compute. reflexivity.
  - assert (E : List.length (sector_view short_descriptor_image 17 1) = 40%nat)
      by (vm_compute; reflexivity).
    rewrite E. lia.
Defined.

(** X6: when sector 17 holds at least 75 bytes and a byte of its
    identifier, or of its boot-system tag once the NULs at both ends are
    removed, is 0x80 or more, the run ends in the general exception handler
    with UnicodeDecodeError, whatever the other fields are: a descriptor
    with the right identifier and a wrong non-ASCII tag is not reported as
    not bootable. *)
Theorem non_ascii_descriptor (f : file) :
  readable f 17 1 = true ->
  (75 <= List.length (sector_view f 17 1))%nat ->
  forallb is_ascii (slice 1 6 (sector_view f 17 1)) = false
  \/ forallb is_ascii (strip [x00] (slice 7 39 (sector_view f 17 1))) = false ->
  main f
  = (Exit1 (ExitException UnicodeDecodeError),
     [GetSector 17 1; Stderr (MsgException UnicodeDecodeError)]).
Proof.
  intros R L H.
  apply (main_raise_in_descriptor f UnicodeDecodeError
           (after_read initial_state 17 1 (sector_view f 17 1))).
  rewrite volume_descriptor_long by assumption.
  unfold decode_ascii.
  destruct (forallb is_ascii (slice 1 6 (sector_view f 17 1))) eqn:A;
    [|reflexivity].
  destruct H as [H|H]; [discriminate H|]. rewrite H. reflexivity.
Qed.

(** X6, witness: the image whose tag is "EL TORITO" and the byte 0xE9. *)
Lemma non_ascii_descriptor_witness :
  main non_ascii_tag_image
  = (Exit1 (ExitException UnicodeDecodeError),
     [GetSector 17 1; Stderr (MsgException UnicodeDecodeError)]).
Proof.
  apply (non_ascii_descriptor non_ascii_tag_image).
  - vm_compute. reflexivity.
  - apply Nat.leb_le. vm_compute. reflexivity.
  - right. vm_compute. reflexivity.
Defined.

Lemma lstrip_decompose (l : bytes) :
  exists a, l = repeat x00 a ++ lstrip [x00] l.
Proof.
  induction l as [|c r [a IH]]; [exists 0%nat; reflexivity|].
  cbn [lstrip mem_byte existsb]. rewrite orb_false_r.
  destruct (Byte.eqb c x00) eqn:E.
  - apply Byte.byte_dec_bl in E. subst c.
    exists (S a). cbn [repeat app]. f_equal. exact IH.
  - exists 0%nat. reflexivity.
Qed.

Lemma rstrip_decompose (l : bytes) :
  exists b, l = rstrip [x00] l ++ repeat x00 b.
Proof.
  destruct (lstrip_decompose (rev l)) as [b E]. exists b.
  unfold rstrip. rewrite <- (rev_involutive l) at 1.
  rewrite E at 1. rewrite rev_app_distr, rev_repeat. reflexivity.
Qed.

(** [strip] removes the NUL bytes around a NUL-free string. *)
Lemma strip_surrounded (a b : nat) (s : bytes) :
  nul_free s = true ->
  strip [x00] (repeat x00 a ++ s ++ repeat x00 b) = s.
Proof.
  intros NF. unfold strip, rstrip.
  rewrite !rev_app_distr, !rev_repeat, <- app_assoc, lstrip_nuls.
  assert (E : lstrip [x00] (rev s ++ repeat x00 a)
              = match s with [] => [] | _ => rev s ++ repeat x00 a end).
  { destruct (rev s) as [|c r] eqn:RS.
    - apply (f_equal (@rev byte)) in RS. rewrite rev_involutive in RS.
      subst s. cbn [app]. rewrite <- (app_nil_r (repeat x00 a)).
      apply lstrip_nuls.
    - assert (NR : nul_free (c :: r) = true)
        by (rewrite <- RS, nul_free_rev; exact NF).
      destruct s as [|x s']; [discriminate RS|].
      cbn [app lstrip mem_byte existsb]. rewrite orb_false_r.
      cbn [nul_free forallb] in NR. apply andb_prop in NR.
      destruct NR as [NR _].
      destruct (Byte.eqb c x00); [discriminate NR|reflexivity]. }
  rewrite E. destruct s as [|x s']; [reflexivity|].
  rewrite rev_app_distr, rev_repeat, rev_involutive, lstrip_nuls.
  apply lstrip_nul_free. exact NF.
Qed.

Lemma decode_ascii_bytes (b : bytes) (s : string) :
  decode_ascii b = Some s -> b = list_byte_of_string s.
Proof.
  unfold decode_ascii. destruct (forallb is_ascii b); [|discriminate].
  intros H. inversion H. symmetry. apply list_byte_of_string_of_list_byte.
Qed.

(** X7: on a readable sector 17 of at least 75 bytes whose identifier is
    "CD001", the volume descriptor check passes exactly when the 32 bytes
    of the boot-system tag are "EL TORITO SPECIFICATION" with NUL bytes
    before and after it, nine in all. *)
Theorem accepted_tags (f : file) :
  readable f 17 1 = true ->
  (75 <= List.length (sector_view f 17 1))%nat ->
  slice 1 6 (sector_view f 17 1) = ascii_bytes "CD001" ->
  (exists p st, volume_descriptor f initial_state = (Ret p, st))
  <-> (exists a b : nat,
         (a + b = 9)%nat
         /\ slice 7 39 (sector_view f 17 1)
            = repeat x00 a ++ el_torito_tag ++ repeat x00 b).
Proof.
  intros R L I. rewrite volume_descriptor_long, I by assumption.
  change (decode_ascii (ascii_bytes "CD001")) with (Some "CD001"%string).
  cbv iota. change ("CD001" =? "CD001")%string with true. cbn [negb orb].
  split.
  - intros [p [st H]].
    destruct (decode_ascii (strip [x00] (slice 7 39 (sector_view f 17 1))))
      as [tag|] eqn:DT; [|discriminate H].
    destruct (tag =? "EL TORITO SPECIFICATION")%string eqn:T;
      [|discriminate H].
    apply String.eqb_eq in T. subst tag.
    apply decode_ascii_bytes in DT.
    change (list_byte_of_string "EL TORITO SPECIFICATION")
      with el_torito_tag in DT.
    destruct (rstrip_decompose (slice 7 39 (sector_view f 17 1))) as [b Eb].
    destruct (lstrip_decompose (rstrip [x00] (slice 7 39 (sector_view f 17 1))))
      as [a Ea].
    fold (strip [x00] (slice 7 39 (sector_view f 17 1))) in Ea.
    rewrite DT in Ea. rewrite Ea in Eb.
    exists a, b. split.
    + apply (f_equal (@List.length byte)) in Eb.
      rewrite slice_length in Eb by lia.
      rewrite !length_app, !repeat_length in Eb.
      change (List.length el_torito_tag) with 23%nat in Eb. lia.
    + rewrite Eb at 1. rewrite <- app_assoc. reflexivity.
  - intros [a [b [_ E]]]. rewrite E.
    rewrite strip_surrounded by reflexivity.
    change (decode_ascii el_torito_tag)
      with (Some "EL TORITO SPECIFICATION"%string).
    cbv iota.
    change ("EL TORITO SPECIFICATION" =? "EL TORITO SPECIFICATION")%string
      with true.
    cbn [negb]. eexists. eexists. reflexivity.
Qed.

(** X7, witness: the tag with one NUL before and eight NULs after the El
    Torito tag is accepted. *)
Lemma accepted_tags_witness :
  exists p st, volume_descriptor leading_nul_image initial_state = (Ret p, st).
Proof.
  apply (accepted_tags leading_nul_image).
  - vm_compute. reflexivity.
  - apply Nat.leb_le. vm_compute. reflexivity.
  - vm_compute. reflexivity.
  - exists 1%nat, 8%nat. split; [reflexivity|]. vm_compute. reflexivity.
Defined.

(** ** More on the catalog sector (lines 89-124) *)

Lemma validation_entry_short (s : bytes) (st : state) :
  (List.length s < 32)%nat ->
  validation_entry s st = (Raise (StructError (BadSize 32)), st).
Proof.
  intros L. unfold validation_entry.
  erewrite bind_raise; [reflexivity|].
  unfold struct_unpack.
  rewrite (unpack_wrong_length _
             [(1, "B"%char); (1, "B"%char); (1, "H"%char); (24, "s"%char);
              (1, "H"%char); (1, "B"%char); (1, "B"%char)]).
  - reflexivity.
  - reflexivity.
  - change (calcsize _) with 32. unfold slice.
    rewrite length_firstn, length_skipn. cbn [skipn]. lia.
Qed.

(** [main] as written is the checks followed by the error of line 123. *)
Lemma main_body_raises (f : file) (st : state) :
  main_body "<BBHBBH_I_B" f st
  = bind (checks f) (fun _ => raise (StructError BadChar)) st.
Proof.
  rewrite main_body_checks. unfold bind.
  destruct (checks f st) as [[s|e|w] st1]; reflexivity.
Qed.

Lemma descriptor_passed (f : file) (p : Z) :
  fst (volume_descriptor f initial_state) = Ret p ->
  volume_descriptor f initial_state
  = (Ret p, after_read initial_state 17 1 (sector_view f 17 1))
  /\ 0 <= p < 2 ^ 32.
Proof.
  intros V.
  destruct (volume_descriptor f initial_state) as [r st1] eqn:V1.
  cbn [fst] in V. subst r.
  destruct (volume_descriptor_ret _ _ _ _ V1) as [Ep [Est _]].
  subst st1. split; [reflexivity|]. rewrite Ep. apply u32_range.
Qed.

(** X8: when the descriptor check has passed with pointer [p] and the
    source has no byte at offset 2048 * p, or the device raises [IOError]
    on that read, the run ends with status 1 at line 92 after two reads;
    the line that announces the catalog sector is not printed, and on the
    short source nothing at all is printed. *)
Theorem no_catalog_sector (f : file) (p : Z) :
  fst (volume_descriptor f initial_state) = Ret p ->
  Z.of_nat (List.length (data f)) <= 2048 * p \/ readable f p 1 = false ->
  main f
  = (Exit1 ExitNoSector,
     if readable f p 1
     then [GetSector 17 1; GetSector p 1]
     else [GetSector 17 1; GetSector p 1; Stderr MsgReadError]).
Proof.
  intros V H. destruct (descriptor_passed f p V) as [V1 P].
  unfold main. destruct (readable f p 1) eqn:R.
  - destruct H as [H|H]; [|discriminate H].
    assert (E : sector_view f p 1 = []).
    { rewrite sector_view_in_range by lia.
      unfold available, SEC_SIZE, V_SEC_SIZE.
      change (512 * 1 =? -1) with false. cbv iota.
      rewrite skipn_all2 by lia. apply firstn_nil. }
    erewrite run_exit.
    2:{ unfold main_body. rewrite (bind_ret _ _ _ _ _ V1).
        erewrite bind_ret
          by (rewrite get_sector_run1, R, E by lia; reflexivity).
        reflexivity. }
    reflexivity.
  - erewrite run_exit.
    2:{ unfold main_body. rewrite (bind_ret _ _ _ _ _ V1).
        erewrite bind_ret by (rewrite get_sector_run1, R by lia; reflexivity).
        reflexivity. }
    reflexivity.
Qed.

(** X8, witness: the image whose catalog pointer is 1000. *)
Lemma no_catalog_sector_witness :
  main far_catalog_image
  = (Exit1 ExitNoSector, [GetSector 17 1; GetSector 1000 1]).
Proof.
  apply (no_catalog_sector far_catalog_image 1000).
  - vm_compute. reflexivity.
  - left. vm_compute. discriminate.
Defined.

(** X9: when the descriptor check has passed and the catalog sector yields
    between 1 and 31 bytes, the run ends in the general exception handler
    with the error of [struct] that asks for a buffer of 32 bytes, after
    the line that announces the catalog sector; the invalid-validation-entry
    exit is not taken. *)
Theorem truncated_catalog_sector (f : file) (p : Z) :
  fst (volume_descriptor f initial_state) = Ret p ->
  readable f p 1 = true ->
  (0 < List.length (sector_view f p 1) < 32)%nat ->
  main f
  = (Exit1 (ExitException (StructError (BadSize 32))),
     [GetSector 17 1; GetSector p 1; Stderr (MsgCatalogSector p);
      Stderr (MsgException (StructError (BadSize 32)))]).
Proof.
  intros V R L. destruct (descriptor_passed f p V) as [V1 P].
  destruct (sector_view f p 1) as [|c r] eqn:S; [simpl in L; lia|].
  unfold main. erewrite run_raise.
  2:{ unfold main_body. rewrite (bind_ret _ _ _ _ _ V1).
      erewrite bind_ret
        by (rewrite get_sector_run1, R, S by lia; reflexivity).
      erewrite bind_ret by reflexivity.
      erewrite bind_ret by reflexivity.
      erewrite bind_raise; [reflexivity|].
      apply validation_entry_short. exact (proj2 L). }
  reflexivity.
Qed.

(** X9, witness: the source that ends 10 bytes into the catalog sector. *)
Lemma truncated_catalog_sector_witness :
  main short_catalog_image
  = (Exit1 (ExitException (StructError (BadSize 32))),
     [GetSector 17 1; GetSector 20 1; Stderr (MsgCatalogSector 20);
      Stderr (MsgException (StructError (BadSize 32)))]).
Proof.
  apply (truncated_catalog_sector short_catalog_image 20).
  - vm_compute. reflexivity.
  - vm_compute. reflexivity.
  - assert (E : List.length (sector_view short_catalog_image 20 1) = 10%nat)
      by (vm_compute; reflexivity).
    rewrite E. lia.
Defined.

Lemma calls_snoc_stderr (l : list event) (m : message) :
  get_sector_calls (l ++ [Stderr m]) = get_sector_calls l.
Proof. rewrite get_sector_calls_app. cbn. apply app_nil_r. Qed.

Lemma calls_snoc_read (l : list event) (n c : Z) :
  get_sector_calls (l ++ [GetSector n c]) = get_sector_calls l ++ [(n, c)].
Proof. rewrite get_sector_calls_app. reflexivity. Qed.

(** Lines 71-87 call [get_sector] once, on sector 17, however they end. *)
Lemma volume_descriptor_calls (f : file) (st : state) :
  get_sector_calls (events (snd (volume_descriptor f st)))
  = get_sector_calls (events st) ++ [(17, 1)].
Proof.
  destruct (readable f 17 1) eqn:R.
  - destruct (Nat.le_gt_cases 75 (List.length (sector_view f 17 1))) as [L|L].
    + rewrite volume_descriptor_long by assumption.
      destruct (decode_ascii (slice 1 6 _)) as [ident|];
        [|apply calls_snoc_read].
      destruct (decode_ascii (strip _ _)) as [tag|];
        [|apply calls_snoc_read].
      destruct (negb _ || negb _); cbn [snd events after_read];
        rewrite ?calls_snoc_stderr; apply calls_snoc_read.
    + destruct (sector_view f 17 1) as [|c r] eqn:S.
      * rewrite volume_descriptor_empty by assumption. apply calls_snoc_read.
      * rewrite volume_descriptor_short, S by (rewrite ?S; easy).
        apply calls_snoc_read.
  - rewrite volume_descriptor_unreadable by exact R.
    cbn [snd events after_failed_read].
    rewrite calls_snoc_stderr. apply calls_snoc_read.
Qed.

(** Lines 96-118 call [get_sector] never. *)
Lemma validation_entry_calls (s : bytes) (st : state) :
  get_sector_calls (events (snd (validation_entry s st)))
  = get_sector_calls (events st).
Proof.
  destruct (Nat.le_gt_cases 32 (List.length s)) as [L|L].
  - rewrite validation_entry_run by exact L.
    destruct (negb _ || negb _ || negb _); cbn [snd events];
      rewrite ?calls_snoc_stderr; reflexivity.
  - rewrite validation_entry_short by exact L. reflexivity.
Qed.

(** X10: whatever the source, a run of [main] calls [get_sector] on sector
    17 with count 1 first, then at most once more, on the sector that the
    descriptor points to and with count 1 again: no run reads more than
    1024 bytes of the source, and none reads the sector of the boot
    image with the count of the entry. *)
Theorem main_reads_at_most_two_sectors (f : file) :
  get_sector_calls (snd (main f)) = [(17, 1)]
  \/ exists p, 0 <= p < 2 ^ 32
               /\ fst (volume_descriptor f initial_state) = Ret p
               /\ get_sector_calls (snd (main f)) = [(17, 1); (p, 1)].
Proof.
  pose proof (volume_descriptor_calls f initial_state) as VC.
  unfold main, run. rewrite main_body_raises. unfold checks, bind.
  destruct (volume_descriptor f initial_state) as [[p|e|w] st1] eqn:V;
    cbn [snd events initial_state get_sector_calls flat_map app] in VC.
  - right. exists p.
    destruct (descriptor_passed f p) as [_ P]; [rewrite V; reflexivity|].
    split; [exact P|]. split; [reflexivity|].
    pose proof (get_sector_recorded f p 1 st1) as GC. rewrite VC in GC.
    destruct (get_sector f p 1 st1) as [[[[|c r]|]|e|w] st2];
      cbn [snd or_exit sys_exit ret raise print record] in *;
      rewrite ?calls_snoc_stderr; try exact GC.
    pose proof (validation_entry_calls (c :: r)
                  (mkState (pos st2)
                           (events st2 ++ [Stderr (MsgCatalogSector p)]))) as VE.
    cbn [events] in VE. rewrite calls_snoc_stderr, GC in VE.
    destruct (validation_entry (c :: r) _) as [[u|e|w] st3];
      unfold ret, raise; cbn [snd] in *; rewrite ?calls_snoc_stderr;
      exact VE.
  - left. cbn [snd]. rewrite calls_snoc_stderr. exact VC.
  - left. exact VC.
Qed.

Lemma lstrip_app_stop (chars s t : bytes) (c : byte) :
  mem_byte c chars = false ->
  lstrip chars (s ++ c :: t) = lstrip chars s ++ c :: t.
Proof.
  intros C. induction s as [|x s IH]; cbn [app lstrip].
  - rewrite C. reflexivity.
  - destruct (mem_byte x chars); [exact IH|reflexivity].
Qed.

Lemma rstrip_stop (chars l : bytes) (c : byte) :
  mem_byte c chars = false -> rstrip chars (l ++ [c]) = l ++ [c].
Proof.
  intros C. unfold rstrip. rewrite rev_app_distr. cbn [rev app lstrip].
  rewrite C. cbn [rev]. rewrite rev_involutive. reflexivity.
Qed.

Lemma filter_ascii_nuls (l : bytes) (k : nat) :
  filter is_ascii (l ++ repeat x00 k) = filter is_ascii l ++ repeat x00 k.
Proof.
  rewrite filter_app. f_equal.
  induction k as [|k IH]; [reflexivity|].
  cbn [repeat filter]. change (is_ascii x00) with true. cbv iota.
  f_equal. exact IH.
Qed.

(** X11: line 107 strips backslashes and digits 0 from the manufacturer,
    not NUL bytes: when the check of the Validation Entry passes and the
    manufacturer field is a name followed by NUL padding, the name is
    printed with its leading backslashes and 0 digits removed and with all
    of its NUL padding. *)
Theorem manufacturer_padding_printed
        (s : bytes) (st : state) (name : bytes) (k : nat) :
  (32 <= List.length s)%nat ->
  validation_ok s = true ->
  slice 4 28 s = name ++ repeat x00 (S k) ->
  validation_entry s st
  = (Ret tt,
     mkState (pos st)
       ((events st
         ++ [Stderr (MsgManufacturer
                       (string_of_list_byte
                          (filter is_ascii (lstrip manufacturer_strip_chars name)
                           ++ repeat x00 (S k))))])
        ++ [Stderr (MsgArchitecture (architecture (u8 1 s)))])).
Proof.
  intros L OK M. rewrite validation_entry_run by exact L.
  unfold validation_ok in OK.
  apply andb_prop in OK. destruct OK as [OK C3].
  apply andb_prop in OK. destruct OK as [C1 C2].
  rewrite C1, C2, C3. cbn [negb orb]. rewrite M.
  fold manufacturer_strip_chars.
  assert (E : strip manufacturer_strip_chars (name ++ repeat x00 (S k))
              = lstrip manufacturer_strip_chars name ++ repeat x00 (S k)).
  { unfold strip.
    replace (name ++ repeat x00 (S k)) with ((name ++ repeat x00 k) ++ [x00])
      by (rewrite <- app_assoc, <- repeat_cons; reflexivity).
    rewrite rstrip_stop by reflexivity.
    rewrite <- app_assoc, <- repeat_cons. cbn [repeat].
    apply lstrip_app_stop. reflexivity. }
  rewrite E. unfold decode_ascii_ignore. rewrite filter_ascii_nuls.
  reflexivity.
Qed.

(** X11, witness: the manufacturer "ACME" of the scenario image is printed
    with its twenty NULs. *)
Lemma manufacturer_padding_printed_witness :
  fst (validation_entry (sector_view scenario_image 20 1) initial_state)
  = Ret tt
  /\ events (snd (validation_entry (sector_view scenario_image 20 1)
                    initial_state))
     = [Stderr (MsgManufacturer
                  (string_of_list_byte (ascii_bytes "ACME" ++ repeat x00 20)));
        Stderr (MsgArchitecture X86)].
Proof.
  rewrite (manufacturer_padding_printed
             (sector_view scenario_image 20 1) initial_state
             (ascii_bytes "ACME") 19).
  - split; reflexivity.
  - apply Nat.leb_le. vm_compute. reflexivity.
  - vm_compute. reflexivity.
  - vm_compute. reflexivity.
Defined.

(** ** More on the sizing and the read of the image (lines 126-181) *)

Lemma available_nth (d : bytes) (offset n : Z) (i : nat) :
  0 <= offset ->
  (i < List.length (available d offset n))%nat ->
  nth_error (available d offset n) i = nth_error d (Z.to_nat offset + i).
Proof.
  intros O. unfold available. destruct (n =? -1).
  - intros _. apply nth_error_skipn.
  - intros I. rewrite length_firstn in I. rewrite nth_error_firstn.
    assert (L : (i <? Z.to_nat n)%nat = true) by (apply Nat.ltb_lt; lia).
    rewrite L. apply nth_error_skipn.
Qed.

(** X12: whatever lines 126-181 hand to the output is not empty and is the
    bytes of the source from byte offset 2048 * img_start on, in order and
    unchanged, as many as the read with the resolved count found. *)
Theorem written_image_is_source_range
        (f : file) (e : initial_fields) (st st' : state) (image : bytes) :
  boot_image f e st = (Ret (Some image), st') ->
  boot e = 0x88
  /\ image <> []
  /\ (exists cnt,
        fst (resolve_count f e st) = Ret cnt
        /\ image = sector_view f (img_start e) cnt)
  /\ forall i : nat,
       (i < List.length image)%nat ->
       nth_error image i
       = nth_error (data f) (Z.to_nat (2048 * img_start e) + i).
Proof.
  unfold boot_image. destruct (boot e =? 0x88) eqn:B; cbn [negb].
  2:{ unfold bind, print, record, sys_exit. discriminate. }
  apply Z.eqb_eq in B. unfold bind.
  destruct (resolve_count f e st) as [[cnt|ex|w] st1]; try discriminate.
  cbn [print record].
  destruct (get_sector f (img_start e) cnt _) as [[[[|c r]|]|ex|w] st2] eqn:G;
    try discriminate.
  cbn [print record ret]. intros H. inversion H; subst image. clear H.
  destruct (get_sector_some _ _ _ _ _ _ G) as [N [_ [_ [S _]]]].
  split; [exact B|]. split; [discriminate|]. split.
  - exists cnt. split; [reflexivity|exact S].
  - intros i I. rewrite S in *.
    rewrite sector_view_in_range in * by exact N.
    rewrite available_nth by (unfold SEC_SIZE; lia || exact I).
    f_equal. unfold SEC_SIZE. lia.
Qed.

(** X12, witness: without emulation, ten blocks from sector 25 of the
    scenario image. *)
Lemma written_image_is_source_range_witness :
  payload 5120 <> []
  /\ forall i : nat,
       (i < List.length (payload 5120))%nat ->
       nth_error (payload 5120) i
       = nth_error (data scenario_image) (Z.to_nat (2048 * 25) + i).
Proof.
  pose proof (written_image_is_source_range
                scenario_image (mkInitial 0x88 0 10 25) initial_state
                (mkState (25 * 2048 + 5120)
                   [Stderr (MsgMediaType (Some NoEmulation));
                    Stderr (MsgImageExtent 25 10); GetSector 25 10;
                    Stderr MsgWritten])
                (payload 5120) ltac:(vm_compute; reflexivity))
    as [_ [NE [_ B]]].
  split; [exact NE | exact B].
Defined.

(** Lines 146-151 on a sector that is not empty and has fewer than 462
    bytes. *)
Lemma media_count_hard_disk_short (f : file) (start : Z) (st : state) :
  0 <= start ->
  readable f start 1 = true ->
  (0 < List.length (sector_view f start 1) < 462)%nat ->
  media_count f 4 start st
  = (Raise (StructError (BadSize 16)),
     after_read
       (mkState (pos st) (events st ++ [Stderr (MsgMediaType (Some HardDisk))]))
       start 1 (sector_view f start 1)).
Proof.
  intros N R L.
  assert (N' : 0 <= start < 2 ^ 52).
  { apply (sector_view_nonempty_range f start 1).
    intros E. rewrite E in L. simpl in L. lia. }
  unfold media_count. cbn [Z.eqb Pos.eqb].
  erewrite bind_ret by reflexivity.
  erewrite bind_ret by (rewrite get_sector_run1, R by exact N'; reflexivity).
  destruct (sector_view f start 1) as [|c r] eqn:S; [simpl in L; lia|].
  erewrite bind_raise; [reflexivity|].
  unfold struct_unpack.
  rewrite (unpack_wrong_length _
             [(8, "s"%char); (1, "I"%char); (1, "I"%char)]).
  - reflexivity.
  - reflexivity.
  - change (calcsize _) with 16. unfold slice.
    rewrite length_firstn, length_skipn. lia.
Qed.

(** X13: with hard disk emulation, when the start sector yields between 1
    and 461 bytes the sizing does not fall back on the declared count: it
    raises the error of [struct] that asks for a buffer of 16 bytes, after
    the one read of the start sector, and the image is not read. *)
Theorem hard_disk_truncated_mbr (f : file) (sc start : Z) (st : state) :
  0 <= start ->
  readable f start 1 = true ->
  (0 < List.length (sector_view f start 1) < 462)%nat ->
  fst (boot_image f (mkInitial 0x88 4 sc start) st)
  = Raise (StructError (BadSize 16))
  /\ get_sector_calls
       (events (snd (boot_image f (mkInitial 0x88 4 sc start) st)))
     = get_sector_calls (events st) ++ [(start, 1)].
Proof.
  intros N R L.
  assert (E : boot_image f (mkInitial 0x88 4 sc start) st
              = (Raise (StructError (BadSize 16)),
                 after_read
                   (mkState (pos st)
                      (events st ++ [Stderr (MsgMediaType (Some HardDisk))]))
                   start 1 (sector_view f start 1))).
  { unfold boot_image, resolve_count. cbn [boot media img_start Z.eqb Pos.eqb negb].
    erewrite bind_raise; [reflexivity|].
    erewrite bind_raise; [reflexivity|].
    apply media_count_hard_disk_short; assumption. }
  rewrite E. split; [reflexivity|]. cbn [snd events after_read].
  rewrite calls_snoc_read, calls_snoc_stderr. reflexivity.
Qed.

(** X13, witness: the source that ends 100 bytes into sector 25. *)
Lemma hard_disk_truncated_mbr_witness :
  fst (boot_image short_mbr_image (mkInitial 0x88 4 10 25) initial_state)
  = Raise (StructError (BadSize 16)).
Proof.
  apply (hard_disk_truncated_mbr short_mbr_image 10 25 initial_state).
  - lia.
  - vm_compute. reflexivity.
  - assert (E : List.length (sector_view short_mbr_image 25 1) = 100%nat)
      by (vm_compute; reflexivity).
    rewrite E. lia.
Defined.

(** X14: the count that the media type gives is never negative and is at
    most 2 * (2^32 - 1): the sum of the two partition fields is not reduced
    to 32 bits. *)
Theorem media_count_range
        (f : file) (m start : Z) (st st1 : state) (count : Z) :
  media_count f m start st = (Ret count, st1) ->
  0 <= count <= 2 * (2 ^ 32 - 1).
Proof.
  unfold media_count.
  destruct (m =? 0); [unfold bind, print, record, ret; intros H; inversion H; lia|].
  destruct (m =? 1); [unfold bind, print, record, ret; intros H; inversion H;
                      unfold V_SEC_SIZE; cbn; lia|].
  destruct (m =? 2); [unfold bind, print, record, ret; intros H; inversion H;
                      unfold V_SEC_SIZE; cbn; lia|].
  destruct (m =? 3); [unfold bind, print, record, ret; intros H; inversion H;
                      unfold V_SEC_SIZE; cbn; lia|].
  destruct (m =? 4);
    [|unfold bind, print, record, ret; intros H; inversion H; lia].
  erewrite bind_ret by reflexivity. unfold bind.
  destruct (get_sector f start 1 _) as [[[[|c r]|]|ex|w] st2] eqn:G;
    try discriminate;
    try (unfold ret; intros H; inversion H; lia).
  destruct (get_sector_some _ _ _ _ _ _ G) as [_ [_ [_ [S _]]]].
  unfold struct_unpack.
  destruct (Nat.le_gt_cases 462 (List.length (c :: r))) as [L|L].
  - rewrite unpack_partition by exact L. unfold ret.
    intros H. inversion H.
    pose proof (u32_range 454 (c :: r)).
    pose proof (u32_range 458 (c :: r)). lia.
  - rewrite (unpack_wrong_length _
               [(8, "s"%char); (1, "I"%char); (1, "I"%char)]).
    + discriminate.
    + reflexivity.
    + change (calcsize _) with 16. unfold slice.
      rewrite length_firstn, length_skipn. lia.
Qed.

(** X14, witness: with both partition fields 0xFFFFFFFF the count is
    8589934590, which is above 2^32. *)
Lemma media_count_range_witness :
  fst (media_count huge_partition_image 4 25 initial_state) = Ret 8589934590
  /\ 0 <= 8589934590 <= 2 * (2 ^ 32 - 1).
Proof.
  split; [vm_compute; reflexivity|].
  apply (media_count_range huge_partition_image 4 25 initial_state
           (mkState (25 * 2048 + 512)
              [Stderr (MsgMediaType (Some HardDisk)); GetSector 25 1])
           8589934590).
  vm_compute. reflexivity.
Defined.

(** X15: lines 126-181, read as written, on an entry with boot indicator
    0x88 and media type 4 (no run of [main] reaches them): when the start
    sector is readable and holds at least 462 bytes, the partition sum is
    not 0, the buffer of 512 * sum bytes exists and can be allocated and
    the device raises no [IOError] on that read, the start sector is read
    twice, first alone and then with the resolved count, and the image
    handed to the output begins with the very sector that sized it. *)
Theorem hard_disk_image_starts_with_mbr
        (f : file) (sc start : Z) (st : state) :
  0 <= start ->
  readable f start 1 = true ->
  (462 <= List.length (sector_view f start 1))%nat ->
  u32 454 (sector_view f start 1) + u32 458 (sector_view f start 1) <> 0 ->
  fits f (u32 454 (sector_view f start 1) + u32 458 (sector_view f start 1))
  = true ->
  readable f start
    (u32 454 (sector_view f start 1) + u32 458 (sector_view f start 1)) = true ->
  exists image,
    fst (boot_image f (mkInitial 0x88 4 sc start) st) = Ret (Some image)
    /\ firstn 512 image = sector_view f start 1
    /\ get_sector_calls
         (events (snd (boot_image f (mkInitial 0x88 4 sc start) st)))
       = get_sector_calls (events st)
         ++ [(start, 1);
             (start, u32 454 (sector_view f start 1)
                     + u32 458 (sector_view f start 1))].
Proof.
  intros N R L NZ F R2.
  assert (N' : 0 <= start < 2 ^ 52).
  { apply (sector_view_nonempty_range f start 1).
    intros E. rewrite E in L. simpl in L. lia. }
  set (cnt := u32 454 (sector_view f start 1) + u32 458 (sector_view f start 1))
    in *.
  assert (C : 1 <= cnt).
  { pose proof (u32_nonneg 454 (sector_view f start 1)).
    pose proof (u32_nonneg 458 (sector_view f start 1)). unfold cnt in *. lia. }
  assert (RC : resolve_count f (mkInitial 0x88 4 sc start) st
               = (Ret cnt,
                  after_read
                    (mkState (pos st)
                       (events st ++ [Stderr (MsgMediaType (Some HardDisk))]))
                    start 1 (sector_view f start 1))).
  { unfold resolve_count. cbn [media img_start s_count].
    rewrite (bind_ret _ _ _ _ _ (media_count_hard_disk f start st N R L)).
    fold cnt. apply Z.eqb_neq in NZ. rewrite NZ. reflexivity. }
  pose proof (sector_view_first_block f start cnt C) as P.
  exists (sector_view f start cnt). split; [|split].
  - rewrite (boot_image_run f (mkInitial 0x88 4 sc start) st _ cnt
               eq_refl RC).
    cbn [img_start].
    unfold bind. rewrite get_sector_run, R2 by assumption.
    destruct (sector_view f start cnt) as [|c r] eqn:S; [|reflexivity].
    rewrite firstn_nil in P. rewrite P in L. simpl in L. lia.
  - symmetry. exact P.
  - rewrite (boot_image_calls f (mkInitial 0x88 4 sc start) st _ cnt
               eq_refl RC).
    cbn [events after_read img_start].
    rewrite calls_snoc_read, calls_snoc_stderr, <- app_assoc. reflexivity.
Qed.

(** X15, witness: the hard disk image, partition of 4096 sectors from
    sector 2048 on. *)
Lemma hard_disk_image_starts_with_mbr_witness :
  exists image,
    fst (boot_image hard_disk_image (mkInitial 0x88 4 10 25) initial_state)
    = Ret (Some image)
    /\ firstn 512 image = sector_view hard_disk_image 25 1
    /\ get_sector_calls
         (events (snd (boot_image hard_disk_image (mkInitial 0x88 4 10 25)
                         initial_state)))
       = [(25, 1); (25, 6144)].
Proof.
  apply (hard_disk_image_starts_with_mbr hard_disk_image 10 25 initial_state).
  - lia.
  - vm_compute. reflexivity.
  - apply Nat.leb_le. vm_compute. reflexivity.
  - vm_compute. discriminate.
  - vm_compute. reflexivity.
  - vm_compute. reflexivity.
Defined.

(** With both partition fields 0xFFFFFFFF the buffer of 512 * 8589934590
    bytes is beyond the memory of the example, and the read of the image
    raises MemoryError. *)
Lemma huge_partition_memory_error :
  fits huge_partition_image 8589934590 = false
  /\ fst (boot_image huge_partition_image (mkInitial 0x88 4 10 25)
            initial_state)
     = Raise MemoryError
  /\ fst (run intended_format huge_partition_image)
     = Exit1 (ExitException MemoryError).
Proof. vm_compute. repeat split; reflexivity. Qed.
